(** * lancer: a linear-ramp load scheduler and its worker pool

    Shallow embedding of [lancer.go] (package [lancer], function [Linear])
    and of the command-line program built around [Lancer.Lance], [Worker]
    and the ready-worker tracker of [main].

    Definitions:
    - [Go]      : the fragments of Go's semantics the sources rely on
                  (int64 wrap-around, [time.Duration], float64 and its
                  conversions, [select]);
    - [Lib]     : [lancer.go], the library scheduler [Linear];
    - [Cmd]     : the command's scheduler, [NewLancer], [tickTime], [Lance];
    - [Http]    : what a worker sees of [net/http];
    - [Pool]    : the command's [Worker] and the tracker of [main];
    - [CmdOld]  : the [Worker] of the earlier revision of the command that
                  already has the closed-form schedule;
    - [AccessLog] : [Parse], the reader of the access log;
    - [Exact]   : the schedule arithmetic read over the real numbers, and
                  the specification's formulas;
    - [Observe] : what the statements read off a run or an input;
    - [Samples] : concrete profiles and environments.

    Then the properties: [GoFacts], [LinearFacts], [LanceFacts],
    [ExactFacts], [PoolFacts], the statements C1 to C10, and further
    properties of the runs, X1 onwards.

    The clock, the channels and the network are the environment: every
    value the code obtains from them is an input of the model, and every
    value it hands to them is recorded in a trace.  float64 is IEEE 754
    binary64 with every operation rounded on its own, as the amd64
    compiler emits it. *)

From Stdlib Require Import ZArith List Bool Lia Ascii String Floats Reals Lra Psatz Zfloor.
Import ListNotations.

(* ================================================================== *)
(** * Go semantics used by the sources *)
(* ================================================================== *)

Module Go.

Open Scope Z_scope.

(** [int] and [int64] arithmetic wraps around modulo 2^64. *)
Definition wrap64 (z : Z) : Z := (z + 2 ^ 63) mod 2 ^ 64 - 2 ^ 63.

Definition in_int64 (z : Z) : bool := (- 2 ^ 63 <=? z) && (z <? 2 ^ 63).

(** [time.Duration] is an [int64] count of nanoseconds. *)
Definition Duration := Z.
Definition Millisecond : Duration := 1000000.
Definition Second : Duration := 1000000000.

(** [float64(z)]: the nearest binary64 value, ties to even. *)
Definition of_int (z : Z) : float :=
  SF2Prim (binary_normalize prec emax z 0 false).

(** The integer part of a finite binary64 value (rounding toward zero). *)
Definition int_part (s : bool) (m : positive) (e : Z) : Z :=
  let v := if 0 <=? e then Z.pos m * 2 ^ e else Z.pos m / 2 ^ (- e) in
  if s then - v else v.

(** Go leaves [int64(f)] implementation-dependent when [f] is NaN, infinite
    or outside the range of [int64]; the model takes that result from the
    platform. *)
Class Platform := { indefinite : float -> Z }.

(** [int64(f)] and [time.Duration(f)]. *)
Definition to_int `{Platform} (f : float) : Z :=
  match Prim2SF f with
  | S754_zero _ => 0
  | S754_finite s m e =>
      let z := int_part s m e in
      if in_int64 z then z else indefinite f
  | _ => indefinite f
  end.

(** amd64: the conversion instruction answers the most negative integer. *)
Definition amd64 : Platform := {| indefinite := fun _ => - 2 ^ 63 |}.

(** A saturating conversion (arm64): NaN gives 0, the rest is clamped. *)
Definition arm64 : Platform :=
  {| indefinite := fun f =>
       if PrimFloat.ltb 0 f then 2 ^ 63 - 1
       else if PrimFloat.ltb f 0 then - 2 ^ 63 else 0 |}.

(** The two outcomes of a blocking [select] over a channel operation and
    [ctx.Done()]. *)
Inductive select_case := Delivered | Cancelled.

(** Prefix a trace to the result of the rest of a run. *)
Definition prepend {E R : Type} (evs : list E) (r : list E * R)
  : list E * R := (evs ++ fst r, snd r).

(** The indices visited by [for i := 1; i < count+1; i++]. *)
Definition indices (count : Z) : list Z :=
  map Z.of_nat (seq 1 (Z.to_nat (wrap64 (count + 1) - 1))).

End Go.

(* ================================================================== *)
(** * lancer.go *)
(* ================================================================== *)

Module Lib.
Import Go.
Open Scope Z_scope.

Inductive error :=
| ErrNoReceiver
| ErrTickMissed
| ErrBadDuration
| Canceled.          (* context.Canceled *)

(** What [Linear] does to its environment. *)
Inductive event :=
| Sleep (d : Duration)
| Send (tick : Duration).

(** What the environment answers in iteration [i]: the value of
    [start.Add(nextTick).Sub(time.Now())] and the case the non-blocking
    [select] takes ([None] is its [default]). *)
Record tick_obs := { dt : Duration; chosen : option select_case }.

Section Linear.
Context `{Platform}.
Variables (low high : float) (duration : Duration).

Definition durationSeconds : float :=
  (of_int duration / of_int Second)%float.
Definition lowSq : float := (low * low)%float.
Definition slope : float := ((high - low) / durationSeconds)%float.

(** The argument of [math.Sqrt] in [tickTime]. *)
Definition sqrt_arg (n : Z) : float :=
  (lowSq + 2 * slope * of_int n)%float.

Definition tickTime (n : Z) : Duration :=
  if (slope =? 0)%float then
    to_int (of_int (wrap64 (n * Second)) / low)%float
  else
    let ret := ((PrimFloat.sqrt (sqrt_arg n) - low) / slope)%float in
    to_int (ret * of_int Second)%float.

Definition count : Z := to_int ((high + low) * durationSeconds / 2)%float.

Fixpoint Linear_loop (env : Z -> tick_obs) (ixs : list Z)
  : list event * option error :=
  match ixs with
  | [] => ([], None)
  | i :: rest =>
      let nextTick := tickTime i in
      let dt := dt (env i) in
      let slept := if dt >? Millisecond then [Sleep dt] else [] in
      match chosen (env i) with
      | Some Cancelled => (slept, Some Canceled)
      | Some Delivered =>
          prepend (slept ++ [Send nextTick]) (Linear_loop env rest)
      | None => (slept, Some ErrNoReceiver)
      end
  end.

Definition Linear (env : Z -> tick_obs) : list event * option error :=
  if duration <=? 0 then ([], Some ErrBadDuration)
  else if tickTime 1 >? duration then ([], Some ErrBadDuration)
  else Linear_loop env (indices count).

End Linear.

(** The ticks a run has put on the channel. *)
Definition sent (tr : list event) : list Duration :=
  flat_map (fun e => match e with Send t => [t] | _ => [] end) tr.

End Lib.

(* ================================================================== *)
(** * The command: scheduler *)
(* ================================================================== *)

Module Cmd.
Import Go.
Open Scope Z_scope.

Record Lancer := {
  low : float; high : float;
  duration : Duration;
  lowSq : float; slope : float; durationSeconds : float;
  missedFrac : Z
}.

Definition NewLancer (low high : float) (duration : Duration)
  (missedFrac : Z) : Lancer :=
  let durationSeconds := (of_int duration / of_int Second)%float in
  {| low := low;
     high := high;
     duration := duration;
     lowSq := (low * low)%float;
     slope := ((high - low) / durationSeconds)%float;
     durationSeconds := durationSeconds;
     missedFrac := missedFrac |}.

Inductive error :=
| ErrMaxMissed (rps : float)   (* "max missed fraction reached at %.1f RPS" *)
| ErrNoReadyWorkers.           (* "No ready workers left!" *)

Inductive event :=
| Sleep (d : Duration)
| Send (tick : Duration)
| LogMissed (dt : Duration) (rps : float).

(** The environment of iteration [i]: the measured [dt] and, when the
    blocking [select] is reached, the case it takes. *)
Record tick_obs := { dt : Duration; chosen : select_case }.

Section Lance.
Context `{Platform}.
Variable l : Lancer.

(** The argument of [math.Sqrt] in [tickTime]. *)
Definition sqrt_arg (n : Z) : float :=
  (lowSq l + 2 * slope l * of_int n)%float.

Definition tickTime (n : Z) : Duration :=
  if (slope l =? 0)%float then
    to_int (of_int (wrap64 (n * Second)) / low l)%float
  else
    let ret := ((PrimFloat.sqrt (sqrt_arg n) - low l) / slope l)%float in
    to_int (ret * of_int Second)%float.

Definition count : Z :=
  to_int ((high l + low l) * durationSeconds l / 2)%float.

(** [float64(time.Second) / float64(l.tickTime(i)-l.tickTime(i-1))] *)
Definition rpsNear (i : Z) : float :=
  (of_int Second / of_int (wrap64 (tickTime i - tickTime (i - 1))))%float.

Fixpoint Lance_loop (env : Z -> tick_obs) (ixs : list Z) (missed : Z)
  : list event * option error :=
  match ixs with
  | [] => ([], None)
  | i :: rest =>
      let tick := tickTime i in
      let dt := dt (env i) in
      if dt <? 0 then
        let missed := wrap64 (missed + 1) in
        let rps := rpsNear i in
        if wrap64 (missedFrac l * missed) >? count then
          ([LogMissed dt rps], Some (ErrMaxMissed rps))
        else
          prepend [LogMissed dt rps] (Lance_loop env rest missed)
      else
        let slept := if dt >? Millisecond then [Sleep dt] else [] in
        match chosen (env i) with
        | Delivered => prepend (slept ++ [Send tick]) (Lance_loop env rest missed)
        | Cancelled => (slept, None)
        end
  end.

Definition Lance (first : select_case) (env : Z -> tick_obs)
  : list event * option error :=
  match first with
  | Delivered => prepend [Send 0] (Lance_loop env (indices count) 0)
  | Cancelled => ([], None)
  end.

End Lance.

Definition sent (tr : list event) : list Duration :=
  flat_map (fun e => match e with Send t => [t] | _ => [] end) tr.

End Cmd.

(* ================================================================== *)
(** * The command: workers and the ready-worker tracker *)
(* ================================================================== *)

(** What a worker sees of [net/http]. *)
Module Http.

Record Request := { URLPath : string }.

(** A response whose body [ioutil.ReadAll] reads: the bytes it returns and
    the error it returns with them, if any. *)
Record Response := {
  StatusCode : Z;
  Body : list Byte.byte;
  ReadErr : option string
}.

(** [http.DefaultTransport.RoundTrip]: a response or an error. *)
Definition RoundTrip := (Response + string)%type.

End Http.

Module Pool.
Import Go Http.
Open Scope Z_scope.

Record Hit := {
  Path : string;
  Tick : Duration;
  TotalTime : Duration;
  SizeIn : Z;
  ProtoCode : Z;
  Error : option string
}.

(** [Hit{Error: err}]: the other fields keep their zero values. *)
Definition errorHit (err : string) : Hit :=
  {| Path := EmptyString; Tick := 0; TotalTime := 0; SizeIn := 0;
     ProtoCode := 0; Error := Some err |}.

(** What the environment answers while one claimed request is served: the
    tick received from [lance] ([None] when [ctx.Done()] is taken instead),
    the outcome of the round trip and the measured [time.Now().Sub(t)]. *)
Record serve_obs := {
  permit : option Duration;
  round_trip : RoundTrip;
  took : Duration
}.

Inductive event :=
| Ready (d : Z)        (* readyWorkers <- d *)
| Emit (h : Hit).      (* hits <- h *)

(** The hit a served request produces. *)
Definition serve (spear : Request) (tick : Duration) (o : serve_obs) : Hit :=
  match round_trip o with
  | inl resp =>
      match ReadErr resp with
      | None =>
          {| Tick := tick;
             Path := URLPath spear;
             ProtoCode := StatusCode resp;
             TotalTime := took o;
             SizeIn := Z.of_nat (List.length (Body resp));
             Error := None |}
      | Some err => errorHit err
      end
  | inr err => errorHit err
  end.

(** [Worker], over the requests this worker receives from [spears] until
    the channel is closed. *)
Fixpoint Worker (spears : list (Request * serve_obs)) : list event :=
  match spears with
  | [] => []
  | (spear, o) :: rest =>
      Ready 1 ::
      match permit o with
      | Some tick => Ready (-1) :: Emit (serve spear tick o) :: Worker rest
      | None => []
      end
  end.

Definition hits (tr : list event) : list Hit :=
  flat_map (fun e => match e with Emit h => [h] | _ => [] end) tr.

Definition announcements (tr : list event) : list Z :=
  flat_map (fun e => match e with Ready d => [d] | _ => [] end) tr.

(** [for workersReady < *numWorkers { workersReady += <-readyWorkers }]:
    the count reached and the announcements left in the channel; [None]
    while the loop is still waiting. *)
Fixpoint warmup (numWorkers workersReady : Z) (anns : list Z)
  : option (Z * list Z) :=
  match anns with
  | [] => if workersReady <? numWorkers then None else Some (workersReady, [])
  | d :: rest =>
      if workersReady <? numWorkers
      then warmup numWorkers (wrap64 (workersReady + d)) rest
      else Some (workersReady, anns)
  end.

(** What the tracker's [select] receives. *)
Inductive tracker_input :=
| Announce (d : Z)
| Done.

(** The tracker goroutine: [Some e] is its return value, [None] means it is
    still blocked in its [select]. *)
Fixpoint tracker (workersReady : Z) (ins : list tracker_input)
  : option (option Cmd.error) :=
  match ins with
  | [] => None
  | Announce d :: rest =>
      let workersReady := wrap64 (workersReady + d) in
      if workersReady =? 0 then Some (Some Cmd.ErrNoReadyWorkers)
      else tracker workersReady rest
  | Done :: _ => Some None
  end.


(** [main] up to the tracker: warm-up, then the tracker on what follows. *)
Definition supervise (numWorkers : Z) (anns : list Z)
  : option (option Cmd.error) :=
  match warmup numWorkers 0 anns with
  | None => None
  | Some (workersReady, rest) => tracker workersReady (map Announce rest)
  end.

End Pool.

(** The [Worker] of the earlier revision with the closed-form schedule. *)
Module CmdOld.
Import Go Http.
Open Scope Z_scope.

Record Hit := {
  Timestamp : Z;
  TotalTime : Duration;
  SizeIn : Z;
  ProtoCode : Z;
  Error : option string
}.

Record serve_obs := {
  permit : bool;           (* [<-lance] taken, rather than [<-ctx.Done()] *)
  started : Z;             (* t := time.Now() *)
  round_trip : RoundTrip;
  took : Duration
}.

Fixpoint Worker (spears : list (Request * serve_obs)) : list Hit :=
  match spears with
  | [] => []
  | (spear, o) :: rest =>
      if permit o then
        match round_trip o with
        | inr err =>
            [ {| Timestamp := started o; TotalTime := 0; SizeIn := 0;
                 ProtoCode := 0; Error := Some err |} ]
        | inl resp =>
            {| Timestamp := started o;
               ProtoCode := StatusCode resp;
               TotalTime := took o;
               SizeIn := Z.of_nat (List.length (Body resp));
               Error := None |} :: Worker rest
        end
      else []
  end.

(** The scheduler of that revision: the same schedule, no tolerance for a
    late tick, and permits that carry no value. *)
Record Lancer := {
  low : float; high : float;
  duration : Duration;
  lowSq : float; slope : float; durationSeconds : float
}.

Definition NewLancer (low high : float) (duration : Duration) : Lancer :=
  let durationSeconds := (of_int duration / of_int Second)%float in
  {| low := low;
     high := high;
     duration := duration;
     lowSq := (low * low)%float;
     slope := ((high - low) / durationSeconds)%float;
     durationSeconds := durationSeconds |}.

Inductive error :=
| ErrMissed (rps : float).   (* "missed time for lance near %.1f RPS" *)

Inductive event :=
| Sleep (d : Duration)
| Send.                      (* lance <- struct{}{} *)

Record tick_obs := { dt : Duration; chosen : select_case }.

Section Lance.
Context `{Platform}.
Variable l : Lancer.

Definition tickTime (n : Z) : Duration :=
  if (slope l =? 0)%float then
    to_int (of_int (wrap64 (n * Second)) / low l)%float
  else
    let ret :=
      ((PrimFloat.sqrt (lowSq l + 2 * slope l * of_int n) - low l)
       / slope l)%float in
    to_int (ret * of_int Second)%float.

Definition count : Z :=
  to_int ((high l + low l) * durationSeconds l / 2)%float.

Fixpoint Lance_loop (env : Z -> tick_obs) (ixs : list Z)
  : list event * option error :=
  match ixs with
  | [] => ([], None)
  | i :: rest =>
      let tick := tickTime i in
      let dt := dt (env i) in
      if dt <? 0 then
        ([], Some (ErrMissed
                     (of_int Second
                      / of_int (wrap64 (tickTime i - tickTime (i - 1))))%float))
      else
        match chosen (env i) with
        | Delivered => prepend [Sleep dt; Send] (Lance_loop env rest)
        | Cancelled => ([Sleep dt], None)
        end
  end.

Definition Lance (first : select_case) (env : Z -> tick_obs)
  : list event * option error :=
  match first with
  | Delivered => prepend [Send] (Lance_loop env (indices count))
  | Cancelled => ([], None)
  end.

End Lance.

(** The number of permits a run has put on the channel. *)
Definition permits (tr : list event) : nat :=
  List.length (filter (fun e => match e with Send => true | _ => false end) tr).

End CmdOld.

(* ================================================================== *)
(** * The command: reading the access log *)
(* ================================================================== *)

Module AccessLog.
Import Go.
Open Scope string_scope.

(** [strings.Split(s, " ")]: the substrings between the spaces, one more
    than there are spaces. *)
Fixpoint Split (s : string) : list string :=
  match s with
  | EmptyString => [EmptyString]
  | String c rest =>
      if Ascii.eqb c " "%char then EmptyString :: Split rest
      else match Split rest with
           | [] => [String c EmptyString]
           | part :: parts => String c part :: parts
           end
  end.

(** [strings.Join(parts, " ")]. *)
Fixpoint Join (parts : list string) : string :=
  match parts with
  | [] => EmptyString
  | [part] => part
  | part :: rest => part ++ " " ++ Join rest
  end.

(** What [Parse] asks [http.NewRequest] to build. *)
Record NewRequest := { Method : string; URL : string }.

(** The body of the scanning loop up to [http.NewRequest]: [None] is the
    run-time panic of [parts[5]], [parts[5][1:]] or [parts[6]]. *)
Definition request_of_line (scheme target line : string) : option NewRequest :=
  let parts := Split line in
  match nth_error parts 5 with
  | Some (String _ method) =>
      match nth_error parts 6 with
      | Some path =>
          Some {| Method := method;
                  URL := scheme ++ "://" ++ target ++ path |}
      | None => None
      end
  | _ => None
  end.

(** What the environment answers for one line: the error of
    [http.NewRequest], if any, and the case the [select] takes. *)
Record line_obs := { new_request_err : option string; chosen : select_case }.

Inductive result :=
| Returned (err : option string)
| Panicked.

(** The scanning loop of [Parse] over the lines of the file; [scan_err]
    is [s.Err()] once the scanner stops.  A request that
    [http.NewRequest] refused is nil, and [req.WithContext] dereferences
    it. *)
Fixpoint scan (cancelRequestsOnStop : bool) (scheme target : string)
  (lines : list (string * line_obs)) (scan_err : option string)
  : list NewRequest * result :=
  match lines with
  | [] => ([], Returned scan_err)
  | (line, o) :: rest =>
      match request_of_line scheme target line with
      | None => ([], Panicked)
      | Some req =>
          match new_request_err o with
          | Some err =>
              if cancelRequestsOnStop then ([], Panicked)
              else ([], Returned (Some ("can't construct request: " ++ err)))
          | None =>
              match chosen o with
              | Delivered =>
                  prepend [req]
                    (scan cancelRequestsOnStop scheme target rest scan_err)
              | Cancelled => ([], Returned None)
              end
          end
      end
  end.

(** [Parse]: [file] is the error of [os.Open] or the lines scanned. *)
Definition Parse (cancelRequestsOnStop : bool) (scheme target : string)
  (file : string + list (string * line_obs)) (scan_err : option string)
  : list NewRequest * result :=
  match file with
  | inl err => ([], Returned (Some err))
  | inr lines => scan cancelRequestsOnStop scheme target lines scan_err
  end.

End AccessLog.

(* ================================================================== *)
(** * The schedule in exact arithmetic *)
(* ================================================================== *)

(** The float64 expressions of [NewLancer], [tickTime] and [count] with
    every operation read as the exact operation on real numbers.  The
    integer operations ([n*int(time.Second)], the conversions to
    [time.Duration] and [int]) are kept as in the source. *)
Module Exact.
Import Go.
Open Scope R_scope.

(** Conversion to an integer rounds toward zero. *)
Definition trunc (x : R) : Z :=
  if Rle_dec 0 x then Zfloor x else (- Zfloor (- x))%Z.

Record Lancer := {
  low : R; high : R;
  duration : Duration;
  lowSq : R; slope : R; durationSeconds : R
}.

Definition NewLancer (low high : R) (duration : Duration) : Lancer :=
  let durationSeconds := IZR duration / IZR Second in
  {| low := low;
     high := high;
     duration := duration;
     lowSq := low * low;
     slope := (high - low) / durationSeconds;
     durationSeconds := durationSeconds |}.

(** The argument of [math.Sqrt] in [tickTime]. *)
Definition sqrt_arg (l : Lancer) (n : Z) : R :=
  lowSq l + 2 * slope l * IZR n.

(** The value of [ret], in seconds, in the branch [slope != 0]. *)
Definition ret (l : Lancer) (n : Z) : R :=
  (sqrt (sqrt_arg l n) - low l) / slope l.

Definition tickTime (l : Lancer) (n : Z) : Duration :=
  if Req_dec_T (slope l) 0 then
    trunc (IZR (wrap64 (n * Second)) / low l)
  else
    trunc (ret l n * IZR Second).

Definition count (l : Lancer) : Z :=
  trunc ((high l + low l) * durationSeconds l / 2).

(** The specification's schedule, from its own words: the slope of the
    ramp, the elapsed time in seconds at which release [n] is due, the
    cumulative count of the rate [low + slope*t] at time [t], and the
    number of releases. *)
Definition spec_slope (low high durationSeconds : R) : R :=
  (high - low) / durationSeconds.

Definition spec_sqrt_arg (low high durationSeconds : R) (n : Z) : R :=
  low ^ 2 + 2 * spec_slope low high durationSeconds * IZR n.



Definition spec_N (low high durationSeconds : R) : Z :=
  Zfloor ((low + high) / 2 * durationSeconds).

End Exact.

(* ================================================================== *)
(** * What is read off a run *)
(* ================================================================== *)

Module Observe.
Import Go Http.
Open Scope Z_scope.

(** The number of late ticks a run has logged. *)
Definition missed_logged (tr : list Cmd.event) : Z :=
  Z.of_nat (List.length
              (filter (fun e => match e with Cmd.LogMissed _ _ => true | _ => false end) tr)).

(** The tick of index [i] is found on time. *)
Definition on_time (env : Z -> Cmd.tick_obs) (i : Z) : bool :=
  0 <=? Cmd.dt (env i).

(** The error a served request ends with, if any. *)
Definition failure (o : Pool.serve_obs) : option string :=
  match Pool.round_trip o with
  | inr err => Some err
  | inl resp => ReadErr resp
  end.

Definition has_permit (c : Request * Pool.serve_obs) : bool :=
  match Pool.permit (snd c) with Some _ => true | None => false end.

(** The sum of a sequence of announcements. *)
Definition total (ds : list Z) : Z := fold_right Z.add 0 ds.

(** A field of a log line: a string without a space. *)
Fixpoint space_free (s : string) : bool :=
  match s with
  | EmptyString => true
  | String c rest => negb (Ascii.eqb c " "%char) && space_free rest
  end.

(** The number of spaces of a line. *)
Fixpoint spaces (s : string) : nat :=
  match s with
  | EmptyString => 0
  | String c rest => (if Ascii.eqb c " "%char then 1 else 0) + spaces rest
  end.

(** A line [Parse] turns into a request that is built and sent. *)
Definition accepted (scheme target : string) (c : string * AccessLog.line_obs) : bool :=
  match AccessLog.request_of_line scheme target (fst c) with
  | Some _ =>
      match AccessLog.new_request_err (snd c), AccessLog.chosen (snd c) with
      | None, Go.Delivered => true
      | _, _ => false
      end
  | None => false
  end.

(** The requests of a sequence of lines, in order. *)
Definition requests (scheme target : string) (lines : list (string * AccessLog.line_obs))
  : list AccessLog.NewRequest :=
  flat_map (fun c => match AccessLog.request_of_line scheme target (fst c) with
                     | Some req => [req]
                     | None => []
                     end) lines.

End Observe.

(* ================================================================== *)
(** * Sample profiles and environments *)
(* ================================================================== *)

Module Samples.
Import Go.
Open Scope string_scope.
Open Scope Z_scope.

(** Every tick is on time and finds a receiver. *)
Definition on_time : Z -> Cmd.tick_obs :=
  fun _ => {| Cmd.dt := 0; Cmd.chosen := Delivered |}.

(** The deadline of tick 1 is found missed by a nanosecond. *)
Definition late_first : Z -> Cmd.tick_obs :=
  fun i => if i =? 1 then {| Cmd.dt := -1; Cmd.chosen := Delivered |}
           else on_time i.

(** Cancellation is observed at the send of every tick. *)
Definition cancelled : Z -> Cmd.tick_obs :=
  fun _ => {| Cmd.dt := 0; Cmd.chosen := Cancelled |}.

Definition lib_on_time : Z -> Lib.tick_obs :=
  fun _ => {| Lib.dt := 0; Lib.chosen := Some Delivered |}.

Definition lib_late : Z -> Lib.tick_obs :=
  fun _ => {| Lib.dt := -5; Lib.chosen := Some Delivered |}.

Definition lib_cancelled : Z -> Lib.tick_obs :=
  fun _ => {| Lib.dt := 0; Lib.chosen := Some Cancelled |}.

(** [-l 1 -h 1 -d 1s], [-l 1 -h 1 -d 2s] with [-q 1], [-l 0 -h 0 -d 60s],
    [-l 10 -h 10 -d 10s], [-l 11 -h 0 -d 10s] and a constant two billion
    requests per second for one second. *)
Definition one_per_second : Cmd.Lancer :=
  Cmd.NewLancer (of_int 1) (of_int 1) Second 100.
Definition two_seconds : Cmd.Lancer :=
  Cmd.NewLancer (of_int 1) (of_int 1) (2 * Second) 1.
Definition zero_rate : Cmd.Lancer :=
  Cmd.NewLancer (of_int 0) (of_int 0) (60 * Second) 100.
Definition ramp_down : Cmd.Lancer :=
  Cmd.NewLancer (of_int 11) (of_int 0) (10 * Second) 100.

(** Requests and what the network answers. *)
Definition get_index : Http.Request := {| Http.URLPath := "/index" |}.
Definition get_about : Http.Request := {| Http.URLPath := "/about" |}.

Definition ok_response : Http.Response :=
  {| Http.StatusCode := 200; Http.Body := [Byte.x68; Byte.x69];
     Http.ReadErr := None |}.
Definition cut_response : Http.Response :=
  {| Http.StatusCode := 200; Http.Body := [Byte.x68];
     Http.ReadErr := Some "unexpected EOF" |}.

Definition refused : Pool.serve_obs :=
  {| Pool.permit := Some Second;
     Pool.round_trip := inr "connection refused";
     Pool.took := 0 |}.
Definition answered : Pool.serve_obs :=
  {| Pool.permit := Some (2 * Second);
     Pool.round_trip := inl ok_response;
     Pool.took := 1500 |}.

Definition old_refused : CmdOld.serve_obs :=
  {| CmdOld.permit := true; CmdOld.started := 0;
     CmdOld.round_trip := inr "connection refused";
     CmdOld.took := 0 |}.
Definition old_answered : CmdOld.serve_obs :=
  {| CmdOld.permit := true; CmdOld.started := 7;
     CmdOld.round_trip := inl ok_response;
     CmdOld.took := 1500 |}.
Definition old_cut : CmdOld.serve_obs :=
  {| CmdOld.permit := true; CmdOld.started := 3;
     CmdOld.round_trip := inl cut_response;
     CmdOld.took := 900 |}.

(** Every deadline is found missed by a nanosecond. *)
Definition all_late : Z -> Cmd.tick_obs :=
  fun _ => {| Cmd.dt := -1; Cmd.chosen := Delivered |}.

(** [-l 1 -h 1 -d 2s -q 3]. *)
Definition strict_two_seconds : Cmd.Lancer :=
  Cmd.NewLancer (of_int 1) (of_int 1) (2 * Second) 3.

(** The first tick finds a receiver, the later ones none. *)
Definition lib_one_receiver : Z -> Lib.tick_obs :=
  fun i => if i =? 1 then {| Lib.dt := 0; Lib.chosen := Some Delivered |}
           else {| Lib.dt := 0; Lib.chosen := None |}.

(** The earlier scheduler at one release per second for two seconds, with
    every tick on time, and with tick 2 late. *)
Definition old_two_seconds : CmdOld.Lancer :=
  CmdOld.NewLancer (of_int 1) (of_int 1) (2 * Second).
Definition old_on_time : Z -> CmdOld.tick_obs :=
  fun _ => {| CmdOld.dt := 0; CmdOld.chosen := Delivered |}.
Definition old_late_second : Z -> CmdOld.tick_obs :=
  fun i => if i =? 2 then {| CmdOld.dt := -1; CmdOld.chosen := Delivered |}
           else old_on_time i.

(** A worker cancelled while it waits for its permit. *)
Definition abandoned : Pool.serve_obs :=
  {| Pool.permit := None;
     Pool.round_trip := inl ok_response;
     Pool.took := 0 |}.

(** The fields of a line of an access log in the combined format; the
    sixth starts with the quote that opens the request line. *)
Definition log_fields : list string :=
  [ "127.0.0.1"; "-"; "-"; "[10/Oct/2000:13:55:36"; "-0700]";
    String "034"%char "GET"; "/index.html"; "HTTP/1.0"; "200"; "2326" ]%string.

Definition sendable : AccessLog.line_obs :=
  {| AccessLog.new_request_err := None; AccessLog.chosen := Delivered |}.
Definition refused_method : AccessLog.line_obs :=
  {| AccessLog.new_request_err := Some "invalid method";
     AccessLog.chosen := Delivered |}.

End Samples.

(* ================================================================== *)
(** * Properties of the scheduling loops *)
(* ================================================================== *)

Module GoFacts.
Import Go.
Open Scope Z_scope.

Lemma wrap64_small (z : Z) : - 2 ^ 63 <= z < 2 ^ 63 -> wrap64 z = z.
Proof.
  intros Hz. unfold wrap64.
  rewrite Z.mod_small by lia. lia.
Qed.

Lemma indices_seq (count : Z) :
  - 1 <= count < 2 ^ 63 - 1 ->
  indices count = map Z.of_nat (seq 1 (Z.to_nat count)).
Proof.
  intros Hc. unfold indices.
  rewrite wrap64_small by lia.
  replace (count + 1 - 1) with count by lia. reflexivity.
Qed.

Lemma indices_length (count : Z) :
  0 <= count < 2 ^ 63 - 1 ->
  Z.of_nat (List.length (indices count)) = count.
Proof.
  intros Hc. rewrite indices_seq by lia.
  rewrite length_map, length_seq. lia.
Qed.



Lemma fst_prepend {E R : Type} (evs : list E) (r : list E * R) :
  fst (prepend evs r) = evs ++ fst r.
Proof. reflexivity. Qed.

Lemma snd_prepend {E R : Type} (evs : list E) (r : list E * R) :
  snd (prepend evs r) = snd r.
Proof. reflexivity. Qed.

End GoFacts.

Module LinearFacts.
Import Go GoFacts Lib.
Open Scope Z_scope.

Section Loop.
Context `{Platform}.
Variables (low high : float) (duration : Duration).
Variable env : Z -> tick_obs.

Lemma Linear_loop_error (ixs : list Z) (e : error) :
  snd (Linear_loop low high duration env ixs) = Some e ->
  e = Canceled \/ e = ErrNoReceiver.
Proof.
  induction ixs as [|i rest IH]; simpl; [discriminate|].
  destruct (chosen (env i)) as [[|]|]; simpl.
  - exact IH.
  - intros [= <-]. now left.
  - intros [= <-]. now right.
Qed.

Lemma Linear_loop_delivered (ixs : list Z) :
  (forall i, In i ixs -> chosen (env i) = Some Delivered) ->
  snd (Linear_loop low high duration env ixs) = None /\
  sent (fst (Linear_loop low high duration env ixs))
  = map (tickTime low high duration) ixs.
Proof.
  induction ixs as [|i rest IH]; intros Hall; simpl; [now split|].
  rewrite (Hall i) by now left.
  destruct IH as [IHe IHs]; [intros j Hj; apply Hall; now right|].
  split; [exact IHe|].
  rewrite fst_prepend. unfold sent in *.
  rewrite !flat_map_app, IHs.
  destruct (dt (env i) >? Millisecond); reflexivity.
Qed.

End Loop.

End LinearFacts.

Module LanceFacts.
Import Go GoFacts Cmd.
Open Scope Z_scope.

Section Loop.
Context `{Platform}.
Variable l : Lancer.
Variable env : Z -> tick_obs.

Lemma Lance_loop_on_time (ixs : list Z) (missed : Z) :
  (forall i, In i ixs -> 0 <= dt (env i) /\ chosen (env i) = Delivered) ->
  snd (Lance_loop l env ixs missed) = None /\
  sent (fst (Lance_loop l env ixs missed)) = map (tickTime l) ixs.
Proof.
  induction ixs as [|i rest IH]; intros Hall; simpl; [now split|].
  destruct (Hall i) as [Hdt Hsel]; [now left|].
  destruct (Z.ltb_spec (dt (env i)) 0) as [Hlt|_]; [lia|].
  rewrite Hsel.
  destruct IH as [IHe IHs]; [intros j Hj; apply Hall; now right|].
  split; [exact IHe|].
  rewrite fst_prepend. unfold sent in *.
  rewrite !flat_map_app, IHs.
  destruct (dt (env i) >? Millisecond); reflexivity.
Qed.

(** The only error [Lance] can return is the missed-fraction one. *)
Lemma Lance_loop_error (ixs : list Z) (missed : Z) (e : error) :
  snd (Lance_loop l env ixs missed) = Some e -> exists rps, e = ErrMaxMissed rps.
Proof.
  revert missed. induction ixs as [|i rest IH]; intros missed; simpl;
    [discriminate|].
  destruct (dt (env i) <? 0).
  - destruct (wrap64 (missedFrac l * wrap64 (missed + 1)) >? count l); simpl.
    + intros [= <-]. eauto.
    + apply IH.
  - destruct (chosen (env i)); simpl; [apply IH | discriminate].
Qed.

End Loop.

End LanceFacts.

(* ================================================================== *)
(** * Properties of the schedule in exact arithmetic *)
(* ================================================================== *)

Module ExactFacts.
Import Go GoFacts Exact.
Open Scope R_scope.

Lemma trunc_nonneg (x : R) : 0 <= x -> trunc x = Zfloor x.
Proof. intros Hx. unfold trunc. destruct (Rle_dec 0 x); [reflexivity|contradiction]. Qed.




Lemma trunc_bounds (x : R) :
  0 <= x -> IZR (trunc x) <= x < IZR (trunc x) + 1.
Proof. intros Hx. rewrite trunc_nonneg by exact Hx. apply Zfloor_bound. Qed.

Lemma Second_pos : 0 < IZR Second.
Proof. unfold Second. lra. Qed.

Lemma seconds_pos (d : Z) : (0 < d)%Z -> 0 < IZR d / IZR Second.
Proof.
  intros Hd. apply Rdiv_lt_0_compat; [apply IZR_lt in Hd; exact Hd|apply Second_pos].
Qed.




Section Ramp.
Variables low high ds : R.
Hypothesis Hlow : 0 <= low.
Hypothesis Hhigh : 0 <= high.
Hypothesis Hds : 0 < ds.

Let s := spec_slope low high ds.
Let N := spec_N low high ds.

Let sqrt_arg := spec_sqrt_arg low high ds.


Lemma spec_N_nonneg : (0 <= N)%Z.
Proof.
  apply Zfloor_lub. simpl.
  apply Rmult_le_pos; [lra | lra].
Qed.





Hypothesis Hrate : 0 < low \/ 0 < high.









End Ramp.





Lemma count_spec_N (low high : R) (d : Z) :
  0 <= low -> 0 <= high -> (0 < d)%Z ->
  count (NewLancer low high d) = spec_N low high (IZR d / IZR Second).
Proof.
  intros Hl Hh Hd. unfold count, spec_N. simpl.
  pose proof (seconds_pos d Hd) as Hds.
  rewrite trunc_nonneg.
  - f_equal. field. unfold Second. lra.
  - apply Rmult_le_pos; [apply Rmult_le_pos; lra | lra].
Qed.

End ExactFacts.

(* ================================================================== *)
(** * Properties of the workers and the tracker *)
(* ================================================================== *)

Module PoolFacts.
Import Go GoFacts Http Pool.
Open Scope Z_scope.




(** Each request served under a permit yields its two announcements and
    exactly one hit, and the loop goes on to the next request whatever the
    outcome of the call. *)
Lemma Worker_served (spear : Request) (o : serve_obs)
  (rest : list (Request * serve_obs)) (tick : Duration) :
  permit o = Some tick ->
  Worker ((spear, o) :: rest)
  = Ready 1 :: Ready (-1) :: Emit (serve spear tick o) :: Worker rest.
Proof. intros Hp. simpl. rewrite Hp. reflexivity. Qed.

(** The hit carries the error exactly when the round trip or the read of
    the body failed; otherwise it carries the path, the tick, the status,
    the latency and the size of the body. *)
Lemma serve_outcome (spear : Request) (tick : Duration) (o : serve_obs) :
  match round_trip o with
  | inr err => serve spear tick o = errorHit err
  | inl resp =>
      match ReadErr resp with
      | Some err => serve spear tick o = errorHit err
      | None =>
          serve spear tick o
          = {| Path := URLPath spear; Tick := tick; TotalTime := took o;
               SizeIn := Z.of_nat (List.length (Body resp));
               ProtoCode := StatusCode resp; Error := None |}
      end
  end.
Proof.
  unfold serve. destruct (round_trip o) as [resp|err]; [|reflexivity].
  destruct (ReadErr resp); reflexivity.
Qed.

(** When every claimed request gets its permit, the worker emits one hit
    per request, in order. *)
Lemma Worker_hits (spears : list (Request * serve_obs)) :
  (forall c, In c spears -> permit (snd c) <> None) ->
  List.length (hits (Worker spears)) = List.length spears.
Proof.
  induction spears as [|[spear o] rest IH]; intros Hall; [reflexivity|].
  destruct (permit o) as [tick|] eqn:Hp.
  - rewrite (Worker_served spear o rest tick Hp). simpl.
    f_equal. apply IH. intros c Hc. apply Hall. now right.
  - exfalso. apply (Hall (spear, o)); [now left | exact Hp].
Qed.

End PoolFacts.

(* ================================================================== *)
(** * The scheduler's claims *)
(* ================================================================== *)

Import Go GoFacts Http.
Open Scope Z_scope.

(** C10. [Linear] never returns [ErrTickMissed]; a tick found late
    ([dt < 0]) is not slept on, counted or checked against a threshold:
    the loop goes straight to its [select], which sends the tick when a
    receiver is ready. *)
Theorem Linear_never_ErrTickMissed `{Platform} :
  forall (low high : float) (duration : Duration) (env : Z -> Lib.tick_obs),
    snd (Lib.Linear low high duration env) <> Some Lib.ErrTickMissed /\
    forall (i : Z) (rest : list Z),
      Lib.dt (env i) < 0 ->
      Lib.Linear_loop low high duration env (i :: rest) =
      match Lib.chosen (env i) with
      | Some Delivered =>
          prepend [Lib.Send (Lib.tickTime low high duration i)]
                  (Lib.Linear_loop low high duration env rest)
      | Some Cancelled => ([], Some Lib.Canceled)
      | None => ([], Some Lib.ErrNoReceiver)
      end.
Proof.
  intros low high duration env. split.
  - unfold Lib.Linear.
    destruct (duration <=? 0); [discriminate|].
    destruct (Lib.tickTime low high duration 1 >? duration); [discriminate|].
    intros Herr.
    destruct (LinearFacts.Linear_loop_error _ _ _ _ _ _ Herr); discriminate.
  - intros i rest Hlate. simpl.
    assert ((Lib.dt (env i) >? Millisecond) = false) as ->.
    { unfold Millisecond. rewrite Z.gtb_ltb. apply Z.ltb_ge. lia. }
    reflexivity.
Qed.

Lemma Linear_never_ErrTickMissed_witness :
  Lib.dt (Samples.lib_late 1) < 0 /\
  @Lib.Linear_loop amd64 (of_int 1) (of_int 1) Second Samples.lib_late [1]
  = ([Lib.Send 1000000000], None).
Proof.
  split; [reflexivity|].
  rewrite (proj2 (@Linear_never_ErrTickMissed amd64 (of_int 1) (of_int 1)
                    Second Samples.lib_late) 1 []) by reflexivity.
  vm_compute. reflexivity.
Defined.

(** C7, as the claim states it, fails for [Linear]: cancellation observed at
    the send of the first tick makes it return [context.Canceled]. *)
Lemma Linear_cancel_returns_error :
  Lib.chosen (Samples.lib_cancelled 1) = Some Cancelled /\
  snd (@Lib.Linear amd64 (of_int 1) (of_int 1) (2 * Second)
         Samples.lib_cancelled) = Some Lib.Canceled /\
  snd (@Lib.Linear amd64 (of_int 1) (of_int 1) (2 * Second)
         Samples.lib_cancelled) <> None.
Proof. vm_compute. repeat split; discriminate. Qed.

(** C7, amended. Wherever one of its two [select]s takes [<-ctx.Done()],
    [Lancer.Lance] returns nil at once, having sent nothing further: at the
    initial send, and at the send of any tick that is not late.  At the
    same point [Linear] returns [context.Canceled].  Neither function
    watches the token while it sleeps: the sleep precedes the [select]. *)
Theorem cancellation_at_select `{Platform} :
  (forall (l : Cmd.Lancer) (env : Z -> Cmd.tick_obs),
      Cmd.Lance l Cancelled env = ([], None)) /\
  (forall (l : Cmd.Lancer) (env : Z -> Cmd.tick_obs) (i : Z) (rest : list Z)
          (missed : Z),
      0 <= Cmd.dt (env i) ->
      Cmd.chosen (env i) = Cancelled ->
      Cmd.Lance_loop l env (i :: rest) missed =
      (if Cmd.dt (env i) >? Millisecond then [Cmd.Sleep (Cmd.dt (env i))]
       else [], None)) /\
  (forall (low high : float) (duration : Duration) (env : Z -> Lib.tick_obs)
          (i : Z) (rest : list Z),
      Lib.chosen (env i) = Some Cancelled ->
      Lib.Linear_loop low high duration env (i :: rest) =
      (if Lib.dt (env i) >? Millisecond then [Lib.Sleep (Lib.dt (env i))]
       else [], Some Lib.Canceled)).
Proof.
  split; [reflexivity|]. split.
  - intros l env i rest missed Hdt Hsel. simpl.
    destruct (Z.ltb_spec (Cmd.dt (env i)) 0) as [Hlt|_]; [lia|].
    rewrite Hsel. reflexivity.
  - intros low high duration env i rest Hsel. simpl.
    rewrite Hsel. reflexivity.
Qed.

Lemma cancellation_at_select_witness :
  (0 <= Cmd.dt (Samples.cancelled 1) /\
   Cmd.chosen (Samples.cancelled 1) = Cancelled /\
   @Cmd.Lance_loop amd64 Samples.one_per_second Samples.cancelled [1] 0
   = ([], None)) /\
  (Lib.chosen (Samples.lib_cancelled 1) = Some Cancelled /\
   @Lib.Linear_loop amd64 (of_int 1) (of_int 1) Second Samples.lib_cancelled
     [1] = ([], Some Lib.Canceled)).
Proof.
  destruct (@cancellation_at_select amd64) as [_ [Hlance Hlinear]].
  split.
  - split; [simpl; lia|]. split; [reflexivity|].
    rewrite (Hlance Samples.one_per_second Samples.cancelled 1 [] 0);
      [reflexivity | simpl; lia | reflexivity].
  - split; [reflexivity|].
    rewrite (Hlinear (of_int 1) (of_int 1) Second Samples.lib_cancelled 1 []);
      reflexivity.
Defined.

(** C4, as the claim states it, fails: with two ticks scheduled and a
    divisor of 1, tick 1 found late is counted and logged, the run goes on,
    and no permit is sent for it. *)
Lemma missed_tick_not_sent :
  Cmd.dt (Samples.late_first 1) < 0 /\
  @Cmd.count amd64 Samples.two_seconds = 2 /\
  @Cmd.tickTime amd64 Samples.two_seconds 1 = 1000000000 /\
  snd (@Cmd.Lance amd64 Samples.two_seconds Delivered Samples.late_first)
  = None /\
  Cmd.sent
    (fst (@Cmd.Lance amd64 Samples.two_seconds Delivered Samples.late_first))
  = [0; 2000000000] /\
  ~ In (@Cmd.tickTime amd64 Samples.two_seconds 1)
       (Cmd.sent (fst (@Cmd.Lance amd64 Samples.two_seconds Delivered
                         Samples.late_first))).
Proof.
  vm_compute. repeat split; try reflexivity.
  intros [H|[H|[]]]; discriminate H.
Qed.

(** C4, amended. At a tick found late ([dt < 0]) the scheduler increments
    the missed count and logs; if [missedFrac * missed], computed in [int],
    is strictly greater than the tick count it returns the
    missed-fraction error; otherwise it goes on to the next index without
    sleeping and without sending: the step's trace holds the log entry
    only, so a missed tick is not released. *)
Theorem missed_tick_step `{Platform} :
  forall (l : Cmd.Lancer) (env : Z -> Cmd.tick_obs) (i : Z) (rest : list Z)
         (missed : Z),
    Cmd.dt (env i) < 0 ->
    let missed' := wrap64 (missed + 1) in
    let logged := [Cmd.LogMissed (Cmd.dt (env i)) (Cmd.rpsNear l i)] in
    (wrap64 (Cmd.missedFrac l * missed') > Cmd.count l ->
     Cmd.Lance_loop l env (i :: rest) missed
     = (logged, Some (Cmd.ErrMaxMissed (Cmd.rpsNear l i)))) /\
    (wrap64 (Cmd.missedFrac l * missed') <= Cmd.count l ->
     Cmd.Lance_loop l env (i :: rest) missed
     = prepend logged (Cmd.Lance_loop l env rest missed') /\
     Cmd.sent logged = []).
Proof.
  intros l env i rest missed Hlate missed' logged. subst missed' logged.
  simpl. destruct (Z.ltb_spec (Cmd.dt (env i)) 0) as [_|Hge]; [|lia].
  split; intros Hcmp.
  - rewrite (proj2 (Z.gtb_gt _ _)) by lia. reflexivity.
  - destruct (Z.gtb_spec (wrap64 (Cmd.missedFrac l * wrap64 (missed + 1)))
                (Cmd.count l)) as [Hgt|_]; [lia|].
    split; reflexivity.
Qed.

Lemma missed_tick_step_witness :
  Cmd.dt (Samples.late_first 1) < 0 /\
  wrap64 (Cmd.missedFrac Samples.two_seconds * wrap64 (0 + 1))
  <= @Cmd.count amd64 Samples.two_seconds /\
  Cmd.sent
    (fst (@Cmd.Lance_loop amd64 Samples.two_seconds Samples.late_first
            [1; 2] 0)) = [2000000000].
Proof.
  assert (Hlate : Cmd.dt (Samples.late_first 1) < 0) by (simpl; lia).
  assert (Hle : wrap64 (Cmd.missedFrac Samples.two_seconds * wrap64 (0 + 1))
                <= @Cmd.count amd64 Samples.two_seconds)
    by (vm_compute; discriminate).
  split; [exact Hlate|]. split; [exact Hle|].
  destruct (@missed_tick_step amd64 Samples.two_seconds Samples.late_first
              1 [2] 0 Hlate) as [_ Hgo].
  rewrite (proj1 (Hgo Hle)). vm_compute. reflexivity.
Defined.

(* ================================================================== *)
(** * The schedule's claims *)
(* ================================================================== *)

(** C9. The code computes the argument of the square root in float64, and
    there it can fall below zero at the last index of a ramp down to zero:
    for [-l 11 -h 0 -d 10s] the count is 55, the argument at index 55 is
    negative, [math.Sqrt] answers NaN and [tickTime 55] is the platform's
    answer to the conversion of NaN (the most negative integer on amd64),
    while [tickTime 54] is 8.65s.  The same holds for [Linear]. *)
Theorem sqrt_arg_negative_at_last_tick :
  @Cmd.count amd64 Samples.ramp_down = 55 /\
  (Cmd.slope Samples.ramp_down =? 0)%float = false /\
  (Cmd.sqrt_arg Samples.ramp_down 55 <? 0)%float = true /\
  PrimFloat.is_nan (PrimFloat.sqrt (Cmd.sqrt_arg Samples.ramp_down 55)) = true /\
  @Cmd.tickTime amd64 Samples.ramp_down 54 = 8651600275 /\
  @Cmd.tickTime amd64 Samples.ramp_down 55 = - 2 ^ 63 /\
  @Lib.count amd64 (of_int 11) (of_int 0) (10 * Second) = 55 /\
  (Lib.sqrt_arg (of_int 11) (of_int 0) (10 * Second)%Z 55%Z <? 0)%float = true /\
  PrimFloat.is_nan
    (PrimFloat.sqrt (Lib.sqrt_arg (of_int 11) (of_int 0) (10 * Second) 55))
  = true.
Proof. vm_compute. repeat split. Qed.







(* ================================================================== *)
(** * Permit counts and the zero-rate profile *)
(* ================================================================== *)




(** C5, as the claim states it, fails: [NewLancer] and [Lance] check
    nothing, so [-l 0 -h 0 -d 60s] runs; it sends the permit of offset 0
    and returns nil. *)
Lemma zero_rate_not_rejected :
  @Cmd.count amd64 Samples.zero_rate = 0 /\
  @Cmd.Lance amd64 Samples.zero_rate Delivered Samples.on_time
  = ([Cmd.Send 0], None).
Proof. vm_compute. split; reflexivity. Qed.

(** C5, amended. A profile whose tick count is zero, as the zero-rate
    profile over 60s is on every platform, is not rejected by
    [Lancer.Lance]: the run sends the permit of offset 0 if a receiver
    takes it, sends nothing else, and returns nil.  [Linear] sends no tick
    for the zero-rate profile, returning either nil or [ErrBadDuration]
    according to the platform's conversion of +Inf.  In exact arithmetic
    the zero-rate count is zero for every positive duration. *)
Theorem zero_rate_run `{Platform} :
  (forall (l : Cmd.Lancer) (first : select_case) (env : Z -> Cmd.tick_obs),
      Cmd.count l = 0 ->
      Cmd.Lance l first env
      = (match first with Delivered => [Cmd.Send 0] | Cancelled => [] end,
         None)) /\
  (forall missedFrac : Z,
      Cmd.count (Cmd.NewLancer (of_int 0) (of_int 0) (60 * Second) missedFrac)
      = 0) /\
  (forall env : Z -> Lib.tick_obs,
      let run := Lib.Linear (of_int 0) (of_int 0) (60 * Second) env in
      fst run = [] /\ (snd run = None \/ snd run = Some Lib.ErrBadDuration)) /\
  (forall d : Z, 0 < d -> Exact.count (Exact.NewLancer 0 0 d) = 0).
Proof.
  split; [|split; [|split]].
  - intros l first env Hc. unfold Cmd.Lance. rewrite Hc.
    destruct first; reflexivity.
  - intros missedFrac. vm_compute. reflexivity.
  - intros env run. subst run. unfold Lib.Linear.
    change (60 * Second <=? 0) with false. cbv iota.
    destruct (Lib.tickTime (of_int 0) (of_int 0) (60 * Second) 1
              >? 60 * Second).
    + split; [reflexivity | now right].
    + assert (Hc : Lib.count (of_int 0) (of_int 0) (60 * Second) = 0)
        by (vm_compute; reflexivity).
      rewrite Hc. split; [reflexivity | now left].
  - intros d Hd.
    rewrite ExactFacts.count_spec_N by (try lra; exact Hd).
    unfold Exact.spec_N. apply Zfloor_eq.
    replace ((0 + 0) / 2 * (IZR d / IZR Second))%R with 0%R; [simpl; lra|].
    unfold Rdiv. ring.
Qed.

(** The two answers of [Linear] to the zero-rate profile: [tickTime 1] is
    the conversion of +Inf, the most negative integer on amd64 and the
    largest one where the conversion saturates. *)
Lemma Linear_zero_rate_by_platform :
  snd (@Lib.Linear amd64 (of_int 0) (of_int 0) (60 * Second)
         Samples.lib_on_time) = None /\
  snd (@Lib.Linear arm64 (of_int 0) (of_int 0) (60 * Second)
         Samples.lib_on_time) = Some Lib.ErrBadDuration.
Proof. vm_compute. split; reflexivity. Qed.

Lemma zero_rate_run_witness :
  @Cmd.Lance amd64 Samples.zero_rate Delivered Samples.on_time
  = ([Cmd.Send 0], None) /\
  Exact.count (Exact.NewLancer 0 0 (60 * Second)) = 0.
Proof.
  destruct (@zero_rate_run amd64) as [Hrun [Hcount [_ Hexact]]].
  split.
  - apply (Hrun Samples.zero_rate Delivered Samples.on_time).
    apply (Hcount 100).
  - apply Hexact. reflexivity.
Defined.

(* ================================================================== *)
(** * The workers' claims *)
(* ================================================================== *)



(** C8. In the earlier revision of [Worker] a failed round trip ends the
    worker: it emits the error hit and returns, leaving the requests that
    follow to others; and an error while reading the body is dropped, the
    hit being emitted as a success with the status and the size of what
    was read. *)
Theorem old_Worker_failure_handling :
  (forall (spear : Request) (o : CmdOld.serve_obs)
          (rest : list (Request * CmdOld.serve_obs)) (err : string),
      CmdOld.permit o = true ->
      CmdOld.round_trip o = inr err ->
      CmdOld.Worker ((spear, o) :: rest)
      = [ {| CmdOld.Timestamp := CmdOld.started o; CmdOld.TotalTime := 0;
             CmdOld.SizeIn := 0; CmdOld.ProtoCode := 0;
             CmdOld.Error := Some err |} ]) /\
  (forall (spear : Request) (o : CmdOld.serve_obs)
          (rest : list (Request * CmdOld.serve_obs)) (resp : Response)
          (err : string),
      CmdOld.permit o = true ->
      CmdOld.round_trip o = inl resp ->
      ReadErr resp = Some err ->
      CmdOld.Worker ((spear, o) :: rest)
      = {| CmdOld.Timestamp := CmdOld.started o;
           CmdOld.TotalTime := CmdOld.took o;
           CmdOld.SizeIn := Z.of_nat (List.length (Body resp));
           CmdOld.ProtoCode := StatusCode resp;
           CmdOld.Error := None |} :: CmdOld.Worker rest).
Proof.
  split.
  - intros spear o rest err Hp Hrt. simpl. rewrite Hp, Hrt. reflexivity.
  - intros spear o rest resp err Hp Hrt _. simpl. rewrite Hp, Hrt.
    reflexivity.
Qed.

Lemma old_Worker_failure_handling_witness :
  List.length
    (CmdOld.Worker [(Samples.get_index, Samples.old_refused);
                    (Samples.get_about, Samples.old_answered)]) = 1%nat /\
  map CmdOld.Error
    (CmdOld.Worker [(Samples.get_index, Samples.old_cut)]) = [None].
Proof.
  destruct old_Worker_failure_handling as [Hstop Hread].
  split.
  - rewrite (Hstop Samples.get_index Samples.old_refused _
               "connection refused"%string); reflexivity.
  - rewrite (Hread Samples.get_index Samples.old_cut [] Samples.cut_response
               "unexpected EOF"%string); reflexivity.
Defined.

(** The latest [Worker] does what the earlier one misses: one hit for each
    request served, with the error set when the round trip or the read
    failed, and the loop continuing after it. *)
Lemma Worker_continues_after_failure :
  Pool.hits
    (Pool.Worker [(Samples.get_index, Samples.refused);
                  (Samples.get_about, Samples.answered)])
  = [ Pool.errorHit "connection refused";
      {| Pool.Path := "/about"; Pool.Tick := 2 * Second;
         Pool.TotalTime := 1500; Pool.SizeIn := 2; Pool.ProtoCode := 200;
         Pool.Error := None |} ].
Proof. reflexivity. Qed.

(* ================================================================== *)
(** * Further properties of the runs *)
(* ================================================================== *)

Module LinearRuns.
Import Go GoFacts Lib.
Open Scope Z_scope.

Section Runs.
Context `{Platform}.
Variables (low high : float) (duration : Duration).
Variable env : Z -> tick_obs.

(** The loop stops at the first index whose [select] does not send. *)
Lemma Linear_loop_stops (pre : list Z) (i : Z) (post : list Z) :
  (forall j, In j pre -> chosen (env j) = Some Delivered) ->
  chosen (env i) <> Some Delivered ->
  sent (fst (Linear_loop low high duration env (pre ++ i :: post)))
  = map (tickTime low high duration) pre /\
  snd (Linear_loop low high duration env (pre ++ i :: post))
  = Some (match chosen (env i) with
          | None => ErrNoReceiver
          | Some _ => Canceled
          end).
Proof.
  intros Hpre Hi. induction pre as [|j pre IH]; simpl.
  - destruct (chosen (env i)) as [[|]|]; [congruence| |];
      destruct (dt (env i) >? Millisecond); split; reflexivity.
  - rewrite (Hpre j) by now left.
    destruct IH as [IHs IHe]; [intros k Hk; apply Hpre; now right|].
    rewrite snd_prepend, fst_prepend. split; [|exact IHe].
    unfold sent in *. rewrite !flat_map_app, IHs.
    destruct (dt (env j) >? Millisecond); reflexivity.
Qed.

Lemma Linear_loop_sleeps (ixs : list Z) :
  Forall (fun e => match e with Sleep d => Millisecond < d | Send _ => True end)
         (fst (Linear_loop low high duration env ixs)).
Proof.
  induction ixs as [|i rest IH]; simpl; [constructor|].
  assert (Hs : Forall (fun e => match e with
                                | Sleep d => Millisecond < d
                                | Send _ => True end)
                 (if dt (env i) >? Millisecond then [Sleep (dt (env i))] else [])).
  { destruct (Z.gtb_spec (dt (env i)) Millisecond); repeat constructor; lia. }
  destruct (chosen (env i)) as [[|]|]; simpl; try exact Hs.
  apply Forall_app. split; [|exact IH].
  apply Forall_app. split; [exact Hs | repeat constructor].
Qed.

End Runs.
End LinearRuns.

Module LanceRuns.
Import Go GoFacts Cmd Observe.
Open Scope Z_scope.

Lemma missed_logged_app (a b : list event) :
  missed_logged (a ++ b) = missed_logged a + missed_logged b.
Proof. unfold missed_logged. rewrite filter_app, length_app. lia. Qed.

Lemma sent_app (a b : list event) : sent (a ++ b) = sent a ++ sent b.
Proof. unfold sent. apply flat_map_app. Qed.

Section Runs.
Context `{Platform}.
Variable l : Lancer.
Variable env : Z -> tick_obs.

Let slept (i : Z) : list event :=
  if dt (env i) >? Millisecond then [Sleep (dt (env i))] else [].

Lemma slept_sent (i : Z) : sent (slept i) = [].
Proof. unfold slept. destruct (dt (env i) >? Millisecond); reflexivity. Qed.

Lemma slept_logged (i : Z) : missed_logged (slept i) = 0.
Proof. unfold slept. destruct (dt (env i) >? Millisecond); reflexivity. Qed.

(** Without cancellation, a loop that returns nil has sent the ticks of the
    indices found on time, in order, and logged the others. *)
Lemma Lance_loop_released (ixs : list Z) :
  forall missed : Z,
    (forall i, In i ixs -> chosen (env i) = Delivered) ->
    snd (Lance_loop l env ixs missed) = None ->
    sent (fst (Lance_loop l env ixs missed))
    = map (tickTime l) (filter (on_time env) ixs) /\
    missed_logged (fst (Lance_loop l env ixs missed))
    = Z.of_nat (List.length (filter (fun i => negb (on_time env i)) ixs)).
Proof.
  induction ixs as [|i rest IH]; intros missed Hall Hnil; [now split|].
  simpl in Hnil |- *.
  destruct (Z.ltb_spec (dt (env i)) 0) as [Hlate|Hok].
  - assert (Hon : on_time env i = false)
      by (unfold on_time; apply Z.leb_gt; exact Hlate).
    rewrite Hon. simpl negb. cbv iota.
    destruct (wrap64 (missedFrac l * wrap64 (missed + 1)) >? count l);
      [discriminate|].
    rewrite snd_prepend in Hnil. rewrite fst_prepend.
    destruct (IH _ (fun j Hj => Hall j (or_intror Hj)) Hnil) as [IHs IHm].
    split.
    + rewrite sent_app, IHs. reflexivity.
    + rewrite missed_logged_app, IHm.
      change (missed_logged [LogMissed (dt (env i)) (rpsNear l i)]) with 1.
      simpl List.length. lia.
  - assert (Hon : on_time env i = true)
      by (unfold on_time; apply Z.leb_le; exact Hok).
    rewrite Hon. simpl negb. cbv iota.
    rewrite (Hall i (or_introl eq_refl)) in Hnil |- *.
    rewrite snd_prepend in Hnil. rewrite fst_prepend.
    destruct (IH _ (fun j Hj => Hall j (or_intror Hj)) Hnil) as [IHs IHm].
    fold (slept i). split.
    + rewrite !sent_app, slept_sent, IHs. reflexivity.
    + rewrite !missed_logged_app, slept_logged, IHm. reflexivity.
Qed.

(** With a divisor of 0 or 1 the threshold cannot be exceeded. *)
Lemma Lance_loop_small_divisor (ixs : list Z) :
  forall missed : Z,
    0 <= missedFrac l <= 1 ->
    0 <= missed ->
    missed + Z.of_nat (List.length ixs) <= count l ->
    count l < 2 ^ 63 ->
    snd (Lance_loop l env ixs missed) = None.
Proof.
  induction ixs as [|i rest IH]; intros missed Hq Hm Hlen Hc; [reflexivity|].
  simpl. simpl List.length in Hlen.
  destruct (dt (env i) <? 0).
  - rewrite (wrap64_small (missed + 1)) by lia.
    assert (Hp : 0 <= missedFrac l * (missed + 1) <= missed + 1) by nia.
    rewrite wrap64_small by lia.
    destruct (Z.gtb_spec (missedFrac l * (missed + 1)) (count l)); [lia|].
    rewrite snd_prepend. apply IH; lia.
  - destruct (chosen (env i)); [|reflexivity].
    rewrite snd_prepend. apply IH; lia.
Qed.

(** A run that aborts has logged more late ticks than the threshold
    allows. *)
Lemma Lance_loop_abort (ixs : list Z) :
  forall (missed : Z) (rps : float),
    0 <= missedFrac l ->
    0 <= missed ->
    missedFrac l * (missed + Z.of_nat (List.length ixs)) < 2 ^ 63 ->
    missed + Z.of_nat (List.length ixs) < 2 ^ 63 ->
    snd (Lance_loop l env ixs missed) = Some (ErrMaxMissed rps) ->
    missedFrac l * (missed + missed_logged (fst (Lance_loop l env ixs missed)))
    > count l.
Proof.
  induction ixs as [|i rest IH]; intros missed rps Hq Hm Hprod Hlen Herr;
    [discriminate|].
  simpl in Herr |- *. simpl List.length in Hprod, Hlen.
  destruct (dt (env i) <? 0).
  - rewrite (wrap64_small (missed + 1)) in Herr |- * by lia.
    assert (Hp : 0 <= missedFrac l * (missed + 1)
                 <= missedFrac l * (missed + Z.of_nat (S (List.length rest))))
      by nia.
    rewrite wrap64_small in Herr |- * by lia.
    destruct (Z.gtb_spec (missedFrac l * (missed + 1)) (count l)) as [Hgt|Hle].
    + simpl. change (missed_logged [LogMissed (dt (env i)) (rpsNear l i)]) with 1.
      lia.
    + rewrite snd_prepend in Herr. rewrite fst_prepend, missed_logged_app.
      change (missed_logged [LogMissed (dt (env i)) (rpsNear l i)]) with 1.
      specialize (IH (missed + 1) rps Hq).
      replace (missed + (1 + missed_logged (fst (Lance_loop l env rest (missed + 1)))))
        with (missed + 1 + missed_logged (fst (Lance_loop l env rest (missed + 1))))
        by lia.
      apply IH; [lia | | lia | exact Herr].
      replace (missed + 1 + Z.of_nat (List.length rest))
        with (missed + Z.of_nat (S (List.length rest))) by lia.
      exact Hprod.
  - destruct (chosen (env i)); [|discriminate].
    rewrite snd_prepend in Herr. rewrite fst_prepend.
    fold (slept i). rewrite !missed_logged_app, slept_logged.
    change (missed_logged [Send (tickTime l i)]) with 0.
    replace (missed + (0 + 0 + missed_logged (fst (Lance_loop l env rest missed))))
      with (missed + missed_logged (fst (Lance_loop l env rest missed))) by lia.
    apply (IH missed rps); [exact Hq | exact Hm | nia | lia | exact Herr].
Qed.

Lemma Lance_loop_sleeps (ixs : list Z) :
  forall missed : Z,
    Forall (fun e => match e with Sleep d => Millisecond < d | _ => True end)
           (fst (Lance_loop l env ixs missed)).
Proof.
  induction ixs as [|i rest IH]; intros missed; simpl; [constructor|].
  assert (Hs : Forall (fun e => match e with
                                | Sleep d => Millisecond < d
                                | _ => True end) (slept i)).
  { unfold slept. destruct (Z.gtb_spec (dt (env i)) Millisecond);
      repeat constructor; lia. }
  destruct (dt (env i) <? 0).
  - destruct (wrap64 (missedFrac l * wrap64 (missed + 1)) >? count l); simpl.
    + repeat constructor.
    + constructor; [exact I | apply IH].
  - fold (slept i). destruct (chosen (env i)); simpl; [|exact Hs].
    apply Forall_app. split; [|apply IH].
    apply Forall_app. split; [exact Hs | repeat constructor].
Qed.

End Runs.
End LanceRuns.

Module OldLanceRuns.
Import Go GoFacts CmdOld.
Open Scope Z_scope.

Lemma permits_app (a b : list event) :
  permits (a ++ b) = (permits a + permits b)%nat.
Proof. unfold permits. now rewrite filter_app, length_app. Qed.

Section Runs.
Context `{Platform}.
Variable l : Lancer.
Variable env : Z -> tick_obs.

Lemma old_Lance_loop_on_time (ixs : list Z) :
  (forall i, In i ixs -> 0 <= dt (env i) /\ chosen (env i) = Delivered) ->
  snd (Lance_loop l env ixs) = None /\
  permits (fst (Lance_loop l env ixs)) = List.length ixs.
Proof.
  induction ixs as [|i rest IH]; intros Hall; [now split|]. simpl.
  destruct (Hall i (or_introl eq_refl)) as [Hdt Hsel].
  destruct (Z.ltb_spec (dt (env i)) 0) as [Hlt|_]; [lia|].
  rewrite Hsel, snd_prepend, fst_prepend.
  destruct (IH (fun j Hj => Hall j (or_intror Hj))) as [IHe IHp].
  split; [exact IHe|]. rewrite permits_app, IHp. reflexivity.
Qed.

Lemma old_Lance_loop_first_late (pre : list Z) (i : Z) (post : list Z) :
  (forall j, In j pre -> 0 <= dt (env j) /\ chosen (env j) = Delivered) ->
  dt (env i) < 0 ->
  snd (Lance_loop l env (pre ++ i :: post))
  = Some (ErrMissed
            (of_int Second
             / of_int (wrap64 (tickTime l i - tickTime l (i - 1))))%float) /\
  permits (fst (Lance_loop l env (pre ++ i :: post))) = List.length pre.
Proof.
  intros Hpre Hlate. induction pre as [|j pre IH]; simpl.
  - destruct (Z.ltb_spec (dt (env i)) 0) as [_|Hge]; [|lia]. now split.
  - destruct (Hpre j (or_introl eq_refl)) as [Hdt Hsel].
    destruct (Z.ltb_spec (dt (env j)) 0) as [Hlt|_]; [lia|].
    rewrite Hsel, snd_prepend, fst_prepend.
    destruct (IH (fun k Hk => Hpre k (or_intror Hk))) as [IHe IHp].
    split; [exact IHe|]. rewrite permits_app, IHp. reflexivity.
Qed.

End Runs.

(** The two revisions compute the same schedule. *)
Lemma tickTime_same `{Platform} (low high : float) (d q n : Z) :
  tickTime (NewLancer low high d) n = Cmd.tickTime (Cmd.NewLancer low high d q) n.
Proof. reflexivity. Qed.

Lemma count_same `{Platform} (low high : float) (d q : Z) :
  count (NewLancer low high d) = Cmd.count (Cmd.NewLancer low high d q).
Proof. reflexivity. Qed.

End OldLanceRuns.

Module PoolRuns.
Import Go GoFacts Http Pool Observe.
Open Scope Z_scope.

Lemma Worker_hits_errors (spears : list (Request * serve_obs)) :
  forallb has_permit spears = true ->
  map Error (hits (Worker spears)) = map (fun c => failure (snd c)) spears.
Proof.
  induction spears as [|[spear o] rest IH]; intros Hall; [reflexivity|].
  simpl in Hall. apply andb_prop in Hall. destruct Hall as [Hp Hrest].
  unfold has_permit in Hp. simpl in Hp.
  destruct (permit o) as [tick|] eqn:Ho; [|discriminate].
  rewrite (PoolFacts.Worker_served spear o rest tick Ho). simpl.
  rewrite (IH Hrest). f_equal.
  unfold failure, serve.
  destruct (round_trip o) as [resp|err]; [|reflexivity].
  destruct (ReadErr resp); reflexivity.
Qed.

Lemma Worker_cancelled (pre : list (Request * serve_obs)) (spear : Request)
  (o : serve_obs) (post : list (Request * serve_obs)) :
  forallb has_permit pre = true ->
  permit o = None ->
  hits (Worker (pre ++ (spear, o) :: post)) = hits (Worker pre) /\
  List.length (hits (Worker (pre ++ (spear, o) :: post))) = List.length pre /\
  total (announcements (Worker (pre ++ (spear, o) :: post))) = 1.
Proof.
  intros Hpre Ho. induction pre as [|[sp1 o1] pre IH].
  - simpl. rewrite Ho. repeat split.
  - simpl in Hpre. apply andb_prop in Hpre. destruct Hpre as [Hp Hrest].
    unfold has_permit in Hp. simpl in Hp.
    destruct (permit o1) as [tick|] eqn:Ho1; [|discriminate].
    destruct (IH Hrest) as (IHh & IHl & IHt).
    change ((sp1, o1) :: pre) with ([(sp1, o1)] ++ pre).
    rewrite <- app_assoc. simpl app.
    rewrite (PoolFacts.Worker_served sp1 o1 _ tick Ho1).
    rewrite (PoolFacts.Worker_served sp1 o1 pre tick Ho1).
    simpl. rewrite IHh, IHt. repeat split.
    rewrite <- IHh. simpl in IHl. rewrite IHl. reflexivity.
Qed.

Lemma Worker_balanced (spears : list (Request * serve_obs)) :
  forallb has_permit spears = true ->
  total (announcements (Worker spears)) = 0.
Proof.
  induction spears as [|[spear o] rest IH]; intros Hall; [reflexivity|].
  simpl in Hall. apply andb_prop in Hall. destruct Hall as [Hp Hrest].
  unfold has_permit in Hp. simpl in Hp.
  destruct (permit o) as [tick|] eqn:Ho; [|discriminate].
  rewrite (PoolFacts.Worker_served spear o rest tick Ho). simpl.
  rewrite (IH Hrest). reflexivity.
Qed.

(** While the workers start, each announcement is a +1. *)
Lemma warmup_ones (k : nat) :
  forall (n w : Z) (rest : list Z),
    0 <= w -> w + Z.of_nat k = n -> n < 2 ^ 63 ->
    warmup n w (repeat 1 k ++ rest) = warmup n n rest.
Proof.
  induction k as [|k IH]; intros n w rest Hw Hk Hn.
  - simpl. replace w with n by lia. reflexivity.
  - simpl. destruct (Z.ltb_spec w n) as [_|Hge]; [|lia].
    rewrite wrap64_small by lia. apply IH; lia.
Qed.

Lemma warmup_at_target (n : Z) (rest : list Z) :
  warmup n n rest = Some (n, rest).
Proof. destruct rest; simpl; rewrite Z.ltb_irrefl; reflexivity. Qed.

Lemma warmup_starved (k : nat) :
  forall n w : Z,
    0 <= w -> w + Z.of_nat k < n -> n < 2 ^ 63 ->
    warmup n w (repeat 1 k) = None.
Proof.
  induction k as [|k IH]; intros n w Hw Hk Hn; simpl.
  - destruct (Z.ltb_spec w n); [reflexivity|lia].
  - destruct (Z.ltb_spec w n) as [_|Hge]; [|lia].
    rewrite wrap64_small by lia. apply IH; lia.
Qed.

(** From [w] ready workers, [m] busy announcements in a row. *)
Lemma tracker_busy (m : nat) :
  forall w : Z,
    0 < w < 2 ^ 63 ->
    tracker w (map Announce (repeat (-1) m))
    = if Z.of_nat m <? w then None else Some (Some Cmd.ErrNoReadyWorkers).
Proof.
  induction m as [|m IH]; intros w Hw.
  - simpl. destruct (Z.ltb_spec 0 w); [reflexivity|lia].
  - cbn [repeat map tracker]. rewrite wrap64_small by lia.
    destruct (Z.eqb_spec (w + -1) 0) as [H0|Hn0].
    + destruct (Z.ltb_spec (Z.of_nat (S m)) w); [lia|reflexivity].
    + rewrite IH by lia.
      destruct (Z.ltb_spec (Z.of_nat m) (w + -1)), (Z.ltb_spec (Z.of_nat (S m)) w);
        try reflexivity; lia.
Qed.

End PoolRuns.

Module AccessLogFacts.
Import Go GoFacts AccessLog Observe.
Open Scope string_scope.

Lemma Split_nonempty (s : string) : Split s <> [].
Proof.
  induction s as [|c s IH]; simpl; [discriminate|].
  destruct (Ascii.eqb c " "); [discriminate|].
  destruct (Split s); [contradiction | discriminate].
Qed.

Lemma Split_length (s : string) : List.length (Split s) = S (spaces s).
Proof.
  induction s as [|c s IH]; simpl; [reflexivity|].
  destruct (Ascii.eqb c " "); simpl; [now rewrite IH|].
  destruct (Split s) as [|part parts] eqn:E; [discriminate|].
  simpl in *. exact IH.
Qed.

Lemma Split_field (f : string) : space_free f = true -> Split f = [f].
Proof.
  induction f as [|c f IH]; simpl; [reflexivity|].
  intros Hf. apply andb_prop in Hf. destruct Hf as [Hc Hf].
  apply negb_true_iff in Hc. rewrite Hc, (IH Hf). reflexivity.
Qed.

Lemma Split_cons (f rest : string) :
  space_free f = true -> Split (f ++ " " ++ rest) = f :: Split rest.
Proof.
  induction f as [|c f IH]; simpl; [reflexivity|].
  intros Hf. apply andb_prop in Hf. destruct Hf as [Hc Hf].
  apply negb_true_iff in Hc. rewrite Hc. simpl in IH. rewrite (IH Hf).
  reflexivity.
Qed.

(** Splitting the line made of space-free fields gives the fields back. *)
Lemma Split_Join (fields : list string) :
  fields <> [] ->
  forallb space_free fields = true ->
  Split (Join fields) = fields.
Proof.
  induction fields as [|f rest IH]; intros Hne Hall; [contradiction|].
  simpl in Hall. apply andb_prop in Hall. destruct Hall as [Hf Hrest].
  destruct rest as [|g rest].
  - simpl. now apply Split_field.
  - change (Join (f :: g :: rest)) with (f ++ " " ++ Join (g :: rest)).
    rewrite Split_cons by exact Hf.
    rewrite IH; [reflexivity | discriminate | exact Hrest].
Qed.

Lemma scan_accepted (flag : bool) (scheme target : string)
  (scan_err : option string) (lines : list (string * line_obs)) :
  forallb (accepted scheme target) lines = true ->
  scan flag scheme target lines scan_err
  = (requests scheme target lines, Returned scan_err).
Proof.
  induction lines as [|[line o] rest IH]; intros Hall; [reflexivity|].
  simpl in Hall. apply andb_prop in Hall. destruct Hall as [Hacc Hrest].
  unfold accepted in Hacc. simpl in Hacc. simpl. unfold requests. simpl.
  destruct (request_of_line scheme target line) as [req|]; [|discriminate].
  destruct (new_request_err o); [discriminate|].
  destruct (chosen o); [|discriminate].
  rewrite (IH Hrest). reflexivity.
Qed.

Lemma scan_prefix (flag : bool) (scheme target : string)
  (scan_err : option string) (pre : list (string * line_obs))
  (rest : list (string * line_obs)) :
  forallb (accepted scheme target) pre = true ->
  scan flag scheme target (pre ++ rest) scan_err
  = prepend (requests scheme target pre)
            (scan flag scheme target rest scan_err).
Proof.
  induction pre as [|[line o] pre IH]; intros Hall.
  - simpl. unfold prepend. simpl. now destruct (scan _ _ _ _ _).
  - simpl in Hall. apply andb_prop in Hall. destruct Hall as [Hacc Hrest].
    unfold accepted in Hacc. simpl in Hacc. simpl. unfold requests. simpl.
    destruct (request_of_line scheme target line) as [req|]; [|discriminate].
    destruct (new_request_err o); [discriminate|].
    destruct (chosen o); [|discriminate].
    rewrite (IH Hrest). reflexivity.
Qed.

End AccessLogFacts.

Module ExactRuns.
Import Go GoFacts Exact ExactFacts.
Open Scope R_scope.

Section Ramp.
Variables low high ds : R.
Hypothesis Hlow : 0 <= low.
Hypothesis Hhigh : 0 <= high.
Hypothesis Hds : 0 < ds.
Hypothesis Hrate : 0 < low \/ 0 < high.



End Ramp.

End ExactRuns.

(* ================================================================== *)
(** * Further statements: the schedulers *)
(* ================================================================== *)

(** X1. [Linear] returns [ErrBadDuration] exactly when the duration is
    not positive or the first tick falls after the end of the run, and it
    then has neither slept nor sent anything. *)
Theorem Linear_ErrBadDuration_iff `{Platform} :
  forall (low high : float) (duration : Duration) (env : Z -> Lib.tick_obs),
    (snd (Lib.Linear low high duration env) = Some Lib.ErrBadDuration <->
     duration <= 0 \/ Lib.tickTime low high duration 1 > duration) /\
    (snd (Lib.Linear low high duration env) = Some Lib.ErrBadDuration ->
     fst (Lib.Linear low high duration env) = []).
Proof.
  intros low high duration env. unfold Lib.Linear.
  destruct (Z.leb_spec duration 0) as [Hle|Hpos].
  - split; [split; [intros _; now left | reflexivity] | reflexivity].
  - destruct (Z.gtb_spec (Lib.tickTime low high duration 1) duration)
      as [Hgt|Hok].
    + split; [split; [intros _; right; lia | reflexivity] | reflexivity].
    + assert (Hno : snd (Lib.Linear_loop low high duration env
                           (indices (Lib.count low high duration)))
                    <> Some Lib.ErrBadDuration).
      { intros Herr.
        destruct (LinearFacts.Linear_loop_error _ _ _ _ _ _ Herr);
          discriminate. }
      split; [split|]; intros Hbad; try contradiction.
      destruct Hbad; lia.
Qed.

Lemma Linear_ErrBadDuration_iff_witness :
  snd (@Lib.Linear amd64 (of_int 1) (of_int 1) 0 Samples.lib_on_time)
  = Some Lib.ErrBadDuration /\
  fst (@Lib.Linear amd64 (of_int 1) (of_int 1) 0 Samples.lib_on_time) = [].
Proof.
  destruct (@Linear_ErrBadDuration_iff amd64 (of_int 1) (of_int 1) 0
              Samples.lib_on_time) as [Hiff Hquiet].
  assert (Hbad : snd (@Lib.Linear amd64 (of_int 1) (of_int 1) 0
                        Samples.lib_on_time) = Some Lib.ErrBadDuration)
    by (apply (proj2 Hiff); left; lia).
  split; [exact Hbad | exact (Hquiet Hbad)].
Defined.

(** X2. Once the profile has passed its checks, [Linear] stops at the first
    tick whose [select] does not send: it has then sent the ticks of the
    earlier indices, in order, and nothing else, and it returns
    [ErrNoReceiver] if no receiver was ready and [context.Canceled] if the
    context was done. *)
Theorem Linear_stops_at_first_refusal `{Platform} :
  forall (low high : float) (duration : Duration) (env : Z -> Lib.tick_obs)
         (pre : list Z) (i : Z) (post : list Z),
    0 < duration ->
    Lib.tickTime low high duration 1 <= duration ->
    indices (Lib.count low high duration) = pre ++ i :: post ->
    (forall j, In j pre -> Lib.chosen (env j) = Some Delivered) ->
    Lib.chosen (env i) <> Some Delivered ->
    Lib.sent (fst (Lib.Linear low high duration env))
    = map (Lib.tickTime low high duration) pre /\
    snd (Lib.Linear low high duration env)
    = Some (match Lib.chosen (env i) with
            | None => Lib.ErrNoReceiver
            | Some _ => Lib.Canceled
            end).
Proof.
  intros low high duration env pre i post Hd Htick Hix Hpre Hi.
  unfold Lib.Linear.
  destruct (Z.leb_spec duration 0) as [Hle|_]; [lia|].
  destruct (Z.gtb_spec (Lib.tickTime low high duration 1) duration)
    as [Hgt|_]; [lia|].
  rewrite Hix. now apply LinearRuns.Linear_loop_stops.
Qed.

Lemma Linear_stops_at_first_refusal_witness :
  Lib.sent (fst (@Lib.Linear amd64 (of_int 1) (of_int 1) (2 * Second)
                   Samples.lib_one_receiver)) = [1000000000] /\
  snd (@Lib.Linear amd64 (of_int 1) (of_int 1) (2 * Second)
         Samples.lib_one_receiver) = Some Lib.ErrNoReceiver.
Proof.
  assert (Hd : 0 < 2 * Second) by reflexivity.
  assert (Ht : @Lib.tickTime amd64 (of_int 1) (of_int 1) (2 * Second) 1
               <= 2 * Second) by (vm_compute; discriminate).
  assert (Hix : indices (@Lib.count amd64 (of_int 1) (of_int 1) (2 * Second))
                = [1] ++ 2 :: []) by (vm_compute; reflexivity).
  assert (Hpre : forall j, In j [1] ->
                   Lib.chosen (Samples.lib_one_receiver j) = Some Delivered)
    by (intros j [<-|[]]; reflexivity).
  assert (Hi : Lib.chosen (Samples.lib_one_receiver 2) <> Some Delivered)
    by discriminate.
  exact (@Linear_stops_at_first_refusal amd64 (of_int 1) (of_int 1)
           (2 * Second) Samples.lib_one_receiver [1] 2 [] Hd Ht Hix Hpre Hi).
Defined.

(** X3. Neither scheduler ever sleeps for a millisecond or less: every
    sleep recorded in a run of [Linear] or of [Lancer.Lance] is longer than
    [time.Millisecond]. *)
Theorem sleeps_exceed_millisecond `{Platform} :
  (forall (low high : float) (duration : Duration) (env : Z -> Lib.tick_obs),
      Forall (fun e => match e with
                       | Lib.Sleep d => Millisecond < d
                       | Lib.Send _ => True
                       end)
             (fst (Lib.Linear low high duration env))) /\
  (forall (l : Cmd.Lancer) (first : select_case) (env : Z -> Cmd.tick_obs),
      Forall (fun e => match e with
                       | Cmd.Sleep d => Millisecond < d
                       | _ => True
                       end)
             (fst (Cmd.Lance l first env))).
Proof.
  split.
  - intros low high duration env. unfold Lib.Linear.
    destruct (duration <=? 0); [constructor|].
    destruct (Lib.tickTime low high duration 1 >? duration); [constructor|].
    apply LinearRuns.Linear_loop_sleeps.
  - intros l first env. unfold Cmd.Lance.
    destruct first; [|constructor].
    rewrite fst_prepend. constructor; [exact I|].
    apply LanceRuns.Lance_loop_sleeps.
Qed.

(** X4. In a run of [Lancer.Lance] that is not cancelled and returns nil,
    the permits sent are the offset 0 followed by the ticks of exactly
    those indices whose deadline was not missed, in order; the others are
    logged, so that permits and logged misses together number N+1. *)
Theorem Lance_releases_on_time_ticks `{Platform} :
  forall (l : Cmd.Lancer) (env : Z -> Cmd.tick_obs),
    (forall i, Cmd.chosen (env i) = Delivered) ->
    snd (Cmd.Lance l Delivered env) = None ->
    Cmd.sent (fst (Cmd.Lance l Delivered env))
    = 0 :: map (Cmd.tickTime l)
               (filter (Observe.on_time env) (indices (Cmd.count l))) /\
    Observe.missed_logged (fst (Cmd.Lance l Delivered env))
    = Z.of_nat (List.length
                  (filter (fun i => negb (Observe.on_time env i))
                          (indices (Cmd.count l)))) /\
    (0 <= Cmd.count l < 2 ^ 63 - 1 ->
     Z.of_nat (List.length (Cmd.sent (fst (Cmd.Lance l Delivered env))))
     + Observe.missed_logged (fst (Cmd.Lance l Delivered env))
     = Cmd.count l + 1).
Proof.
  intros l env Hsel Hnil. unfold Cmd.Lance in *.
  rewrite snd_prepend in Hnil. rewrite fst_prepend.
  destruct (LanceRuns.Lance_loop_released l env (indices (Cmd.count l)) 0
              (fun i _ => Hsel i) Hnil) as [Hs Hm].
  rewrite LanceRuns.sent_app, LanceRuns.missed_logged_app, Hs, Hm.
  split; [reflexivity|]. split; [reflexivity|].
  intros Hc. rewrite length_app, length_map.
  pose proof (indices_length (Cmd.count l) Hc) as Hlen.
  pose proof (filter_length (Observe.on_time env) (indices (Cmd.count l)))
    as Hsplit.
  change (Observe.missed_logged [Cmd.Send 0]) with 0.
  change (List.length (Cmd.sent [Cmd.Send 0])) with 1%nat.
  lia.
Qed.

Lemma Lance_releases_on_time_ticks_witness :
  Cmd.sent (fst (@Cmd.Lance amd64 Samples.two_seconds Delivered
                   Samples.late_first))
  = 0 :: map (@Cmd.tickTime amd64 Samples.two_seconds)
             (filter (Observe.on_time Samples.late_first)
                     (indices (@Cmd.count amd64 Samples.two_seconds))).
Proof.
  refine (proj1 (@Lance_releases_on_time_ticks amd64 Samples.two_seconds
                   Samples.late_first _ _)).
  - intros i. unfold Samples.late_first. destruct (i =? 1); reflexivity.
  - vm_compute. reflexivity.
Defined.

(** X5. With a divisor of 0 or 1 the run cannot be aborted, however many
    ticks are late: the missed count never exceeds the tick count, so
    [Lancer.Lance] returns nil. *)
Theorem Lance_small_divisor_never_aborts `{Platform} :
  forall (l : Cmd.Lancer) (first : select_case) (env : Z -> Cmd.tick_obs),
    0 <= Cmd.missedFrac l <= 1 ->
    0 <= Cmd.count l < 2 ^ 63 - 1 ->
    snd (Cmd.Lance l first env) = None.
Proof.
  intros l first env Hq Hc. unfold Cmd.Lance.
  destruct first; [|reflexivity].
  rewrite snd_prepend.
  apply LanceRuns.Lance_loop_small_divisor; try lia.
  rewrite (indices_length (Cmd.count l) Hc). lia.
Qed.

Lemma Lance_small_divisor_never_aborts_witness :
  snd (@Cmd.Lance amd64 Samples.two_seconds Delivered Samples.all_late) = None.
Proof.
  apply (@Lance_small_divisor_never_aborts amd64).
  - simpl. lia.
  - vm_compute. split; [discriminate | reflexivity].
Defined.

(** X6. When [Lancer.Lance] aborts, the late ticks it has logged, times
    the divisor, exceed the tick count (for a divisor that is not negative
    and small enough for the product not to wrap). *)
Theorem Lance_abort_exceeds_threshold `{Platform} :
  forall (l : Cmd.Lancer) (first : select_case) (env : Z -> Cmd.tick_obs)
         (rps : float),
    0 <= Cmd.missedFrac l ->
    0 <= Cmd.count l < 2 ^ 63 - 1 ->
    Cmd.missedFrac l * Cmd.count l < 2 ^ 63 ->
    snd (Cmd.Lance l first env) = Some (Cmd.ErrMaxMissed rps) ->
    Cmd.missedFrac l * Observe.missed_logged (fst (Cmd.Lance l first env))
    > Cmd.count l.
Proof.
  intros l first env rps Hq Hc Hprod Herr. unfold Cmd.Lance in *.
  destruct first; [|discriminate].
  rewrite snd_prepend in Herr.
  rewrite fst_prepend, LanceRuns.missed_logged_app.
  change (Observe.missed_logged [Cmd.Send 0]) with 0.
  pose proof (indices_length (Cmd.count l) Hc) as Hlen.
  apply (LanceRuns.Lance_loop_abort l env (indices (Cmd.count l)) 0 rps);
    try assumption; rewrite ?Hlen; lia.
Qed.

Lemma Lance_abort_exceeds_threshold_witness :
  Cmd.missedFrac Samples.strict_two_seconds
  * Observe.missed_logged
      (fst (@Cmd.Lance amd64 Samples.strict_two_seconds Delivered
              Samples.all_late))
  > @Cmd.count amd64 Samples.strict_two_seconds.
Proof.
  apply (@Lance_abort_exceeds_threshold amd64 Samples.strict_two_seconds
           Delivered Samples.all_late
           (@Cmd.rpsNear amd64 Samples.strict_two_seconds 1)).
  - simpl. lia.
  - vm_compute. split; [discriminate | reflexivity].
  - vm_compute. reflexivity.
  - vm_compute. reflexivity.
Defined.

(** X7. The scheduler of the earlier revision gives up at the first late
    tick: having sent the initial permit and one permit for each earlier
    index, it returns the missed-time error. *)
Theorem old_Lance_stops_at_first_late_tick `{Platform} :
  forall (l : CmdOld.Lancer) (env : Z -> CmdOld.tick_obs)
         (pre : list Z) (i : Z) (post : list Z),
    indices (CmdOld.count l) = pre ++ i :: post ->
    (forall j, In j pre ->
               0 <= CmdOld.dt (env j) /\ CmdOld.chosen (env j) = Delivered) ->
    CmdOld.dt (env i) < 0 ->
    snd (CmdOld.Lance l Delivered env)
    = Some (CmdOld.ErrMissed
              (of_int Second
               / of_int (wrap64 (CmdOld.tickTime l i
                                 - CmdOld.tickTime l (i - 1))))%float) /\
    CmdOld.permits (fst (CmdOld.Lance l Delivered env)) = S (List.length pre).
Proof.
  intros l env pre i post Hix Hpre Hlate. unfold CmdOld.Lance.
  rewrite snd_prepend, fst_prepend, Hix.
  destruct (OldLanceRuns.old_Lance_loop_first_late l env pre i post Hpre Hlate)
    as [He Hp].
  split; [exact He|].
  rewrite OldLanceRuns.permits_app, Hp. reflexivity.
Qed.

Lemma old_Lance_stops_at_first_late_tick_witness :
  CmdOld.permits (fst (@CmdOld.Lance amd64 Samples.old_two_seconds Delivered
                         Samples.old_late_second)) = 2%nat.
Proof.
  refine (proj2 (@old_Lance_stops_at_first_late_tick amd64
                   Samples.old_two_seconds Samples.old_late_second
                   [1] 2 [] _ _ _)).
  - vm_compute. reflexivity.
  - intros j [<-|[]]. split; [simpl; lia | reflexivity].
  - simpl. lia.
Defined.

(** X8. When no tick is late and every send finds a receiver, the two
    revisions of the scheduler agree: for the same profile both return nil
    and both send N+1 permits. *)
Theorem old_and_new_Lance_agree `{Platform} :
  forall (low high : float) (d q : Z)
         (old_env : Z -> CmdOld.tick_obs) (env : Z -> Cmd.tick_obs),
    0 <= Cmd.count (Cmd.NewLancer low high d q) < 2 ^ 63 - 1 ->
    (forall i, 0 <= CmdOld.dt (old_env i)
               /\ CmdOld.chosen (old_env i) = Delivered) ->
    (forall i, 0 <= Cmd.dt (env i) /\ Cmd.chosen (env i) = Delivered) ->
    snd (CmdOld.Lance (CmdOld.NewLancer low high d) Delivered old_env) = None /\
    snd (Cmd.Lance (Cmd.NewLancer low high d q) Delivered env) = None /\
    CmdOld.permits
      (fst (CmdOld.Lance (CmdOld.NewLancer low high d) Delivered old_env))
    = List.length
        (Cmd.sent (fst (Cmd.Lance (Cmd.NewLancer low high d q) Delivered env))).
Proof.
  intros low high d q old_env env Hc Hold Hnew.
  unfold CmdOld.Lance, Cmd.Lance.
  rewrite !snd_prepend, !fst_prepend.
  rewrite (OldLanceRuns.count_same low high d q).
  set (ixs := indices (Cmd.count (Cmd.NewLancer low high d q))).
  destruct (OldLanceRuns.old_Lance_loop_on_time (CmdOld.NewLancer low high d)
              old_env ixs (fun i _ => Hold i)) as [Hoe Hop].
  destruct (LanceFacts.Lance_loop_on_time (Cmd.NewLancer low high d q)
              env ixs 0 (fun i _ => Hnew i)) as [Hne Hns].
  split; [exact Hoe|]. split; [exact Hne|].
  rewrite OldLanceRuns.permits_app, Hop, LanceRuns.sent_app, Hns.
  simpl. rewrite length_map. reflexivity.
Qed.

Lemma old_and_new_Lance_agree_witness :
  CmdOld.permits
    (fst (@CmdOld.Lance amd64 (CmdOld.NewLancer (of_int 1) (of_int 1)
                                 (2 * Second))
            Delivered Samples.old_on_time))
  = List.length
      (Cmd.sent (fst (@Cmd.Lance amd64 (Cmd.NewLancer (of_int 1) (of_int 1)
                                          (2 * Second) 1)
                        Delivered Samples.on_time))).
Proof.
  refine (proj2 (proj2 (@old_and_new_Lance_agree amd64 (of_int 1) (of_int 1)
                          (2 * Second) 1 Samples.old_on_time Samples.on_time
                          _ _ _))).
  - vm_compute. split; [discriminate | reflexivity].
  - intros i. split; [simpl; lia | reflexivity].
  - intros i. split; [simpl; lia | reflexivity].
Defined.

(** X18. The library scheduler and the command's scheduler compute the
    same schedule: for the same profile, when no tick is late and every
    send finds a receiver, [Lancer.Lance] sends the offset 0 followed by
    exactly the ticks [Linear] sends once the profile has passed its
    checks. *)
Theorem Lance_is_Linear_after_offset_zero `{Platform} :
  forall (low high : float) (d q : Z)
         (lib_env : Z -> Lib.tick_obs) (env : Z -> Cmd.tick_obs),
    0 < d ->
    Lib.tickTime low high d 1 <= d ->
    (forall i, Lib.chosen (lib_env i) = Some Delivered) ->
    (forall i, 0 <= Cmd.dt (env i) /\ Cmd.chosen (env i) = Delivered) ->
    (forall n, Cmd.tickTime (Cmd.NewLancer low high d q) n
               = Lib.tickTime low high d n) /\
    Cmd.count (Cmd.NewLancer low high d q) = Lib.count low high d /\
    Cmd.sent (fst (Cmd.Lance (Cmd.NewLancer low high d q) Delivered env))
    = 0 :: Lib.sent (fst (Lib.Linear low high d lib_env)).
Proof.
  intros low high d q lib_env env Hd Htick Hlib Hcmd.
  assert (Htt : forall n, Cmd.tickTime (Cmd.NewLancer low high d q) n
                          = Lib.tickTime low high d n) by reflexivity.
  assert (Hcount : Cmd.count (Cmd.NewLancer low high d q)
                   = Lib.count low high d) by reflexivity.
  split; [exact Htt|]. split; [exact Hcount|].
  unfold Cmd.Lance, Lib.Linear.
  destruct (Z.leb_spec d 0) as [Hle|_]; [lia|].
  destruct (Z.gtb_spec (Lib.tickTime low high d 1) d) as [Hgt|_]; [lia|].
  rewrite fst_prepend, LanceRuns.sent_app, Hcount.
  destruct (LanceFacts.Lance_loop_on_time (Cmd.NewLancer low high d q) env
              (indices (Lib.count low high d)) 0 (fun i _ => Hcmd i))
    as [_ Hs].
  destruct (LinearFacts.Linear_loop_delivered low high d lib_env
              (indices (Lib.count low high d)) (fun i _ => Hlib i))
    as [_ Hl].
  rewrite Hs, Hl. reflexivity.
Qed.

Lemma Lance_is_Linear_after_offset_zero_witness :
  Cmd.sent (fst (@Cmd.Lance amd64 (Cmd.NewLancer (of_int 1) (of_int 1)
                                     (2 * Second) 1)
                   Delivered Samples.on_time))
  = 0 :: Lib.sent (fst (@Lib.Linear amd64 (of_int 1) (of_int 1) (2 * Second)
                          Samples.lib_on_time)).
Proof.
  refine (proj2 (proj2 (@Lance_is_Linear_after_offset_zero amd64
                          (of_int 1) (of_int 1) (2 * Second) 1
                          Samples.lib_on_time Samples.on_time _ _ _ _))).
  - reflexivity.
  - vm_compute. discriminate.
  - intros i. reflexivity.
  - intros i. split; [simpl; lia | reflexivity].
Defined.

(* ================================================================== *)
(** * Further statements: workers, tracker and warm-up *)
(* ================================================================== *)

(** X9. A worker's announcements balance when every request it claimed got
    its permit (each +1 is followed by its -1); a worker cancelled while it
    waits for a permit leaves its last +1 standing, so its announcements
    sum to 1. *)
Theorem Worker_announcements_balance :
  (forall spears : list (Request * Pool.serve_obs),
      forallb Observe.has_permit spears = true ->
      Observe.total (Pool.announcements (Pool.Worker spears)) = 0) /\
  (forall (pre : list (Request * Pool.serve_obs)) (spear : Request)
          (o : Pool.serve_obs) (post : list (Request * Pool.serve_obs)),
      forallb Observe.has_permit pre = true ->
      Pool.permit o = None ->
      Observe.total
        (Pool.announcements (Pool.Worker (pre ++ (spear, o) :: post))) = 1).
Proof.
  split.
  - apply PoolRuns.Worker_balanced.
  - intros pre spear o post Hpre Ho.
    apply (PoolRuns.Worker_cancelled pre spear o post Hpre Ho).
Qed.

Lemma Worker_announcements_balance_witness :
  Observe.total
    (Pool.announcements
       (Pool.Worker [(Samples.get_index, Samples.refused);
                     (Samples.get_about, Samples.answered)])) = 0 /\
  Observe.total
    (Pool.announcements
       (Pool.Worker ([(Samples.get_index, Samples.answered)]
                     ++ (Samples.get_about, Samples.abandoned)
                     :: [(Samples.get_index, Samples.answered)]))) = 1.
Proof.
  destruct Worker_announcements_balance as [Hall Hcancel].
  split.
  - apply Hall. reflexivity.
  - apply Hcancel; reflexivity.
Defined.

(** X10. The latest [Worker] emits one hit for each request it serves, in
    order, whose error is set exactly when the round trip or the read of
    the body failed; a worker cancelled while it waits for a permit emits
    the hits of the requests served before and nothing for the request it
    holds or for those that follow. *)
Theorem Worker_one_hit_per_served_request :
  (forall spears : list (Request * Pool.serve_obs),
      forallb Observe.has_permit spears = true ->
      map Pool.Error (Pool.hits (Pool.Worker spears))
      = map (fun c => Observe.failure (snd c)) spears) /\
  (forall (pre : list (Request * Pool.serve_obs)) (spear : Request)
          (o : Pool.serve_obs) (post : list (Request * Pool.serve_obs)),
      forallb Observe.has_permit pre = true ->
      Pool.permit o = None ->
      Pool.hits (Pool.Worker (pre ++ (spear, o) :: post))
      = Pool.hits (Pool.Worker pre) /\
      List.length (Pool.hits (Pool.Worker (pre ++ (spear, o) :: post)))
      = List.length pre).
Proof.
  split.
  - apply PoolRuns.Worker_hits_errors.
  - intros pre spear o post Hpre Ho.
    destruct (PoolRuns.Worker_cancelled pre spear o post Hpre Ho)
      as (Hh & Hl & _).
    now split.
Qed.

Lemma Worker_one_hit_per_served_request_witness :
  map Pool.Error
    (Pool.hits (Pool.Worker [(Samples.get_index, Samples.refused);
                             (Samples.get_about, Samples.answered)]))
  = [Some "connection refused"%string; None] /\
  List.length
    (Pool.hits
       (Pool.Worker ([(Samples.get_index, Samples.answered)]
                     ++ (Samples.get_about, Samples.abandoned)
                     :: [(Samples.get_index, Samples.answered)]))) = 1%nat.
Proof.
  destruct Worker_one_hit_per_served_request as [Hall Hcancel].
  split.
  - rewrite Hall; reflexivity.
  - apply Hcancel; reflexivity.
Defined.

(** X11. The warm-up loop of [main] ends when as many +1 announcements
    have arrived as there are workers, leaving the later announcements to
    the tracker; with fewer it never ends.  A worker announces only after
    it has claimed a request, so an access log with fewer requests than
    workers leaves [main] in its warm-up loop. *)
Theorem warmup_needs_every_worker :
  forall (numWorkers : Z) (k : nat) (rest : list Z),
    0 <= numWorkers < 2 ^ 63 ->
    (Z.of_nat k = numWorkers ->
     Pool.warmup numWorkers 0 (repeat 1 k ++ rest) = Some (numWorkers, rest)) /\
    (Z.of_nat k < numWorkers ->
     Pool.warmup numWorkers 0 (repeat 1 k) = None /\
     Pool.supervise numWorkers (repeat 1 k) = None).
Proof.
  intros n k rest Hn. split.
  - intros Hk.
    rewrite (PoolRuns.warmup_ones k n 0 rest) by lia.
    apply PoolRuns.warmup_at_target.
  - intros Hk.
    assert (Hw : Pool.warmup n 0 (repeat 1 k) = None)
      by (apply PoolRuns.warmup_starved; lia).
    split; [exact Hw|]. unfold Pool.supervise. rewrite Hw. reflexivity.
Qed.

Lemma warmup_needs_every_worker_witness :
  Pool.warmup 3 0 (repeat 1 3 ++ [-1; 1]) = Some (3, [-1; 1]) /\
  Pool.supervise 3 (repeat 1 2) = None.
Proof.
  assert (Hn : 0 <= 3 < 2 ^ 63) by (split; [discriminate | reflexivity]).
  split.
  - apply (proj1 (warmup_needs_every_worker 3 3 [-1; 1] Hn)). reflexivity.
  - apply (proj2 (warmup_needs_every_worker 3 2 [] Hn)). reflexivity.
Defined.

(** X12. After the warm-up of [numWorkers] workers, the tracker tolerates
    busy announcements as long as fewer than [numWorkers] workers are busy
    at once and returns the no-ready-workers error at the announcement
    that makes all of them busy. *)
Theorem overload_when_all_busy :
  forall (numWorkers : Z) (m : nat),
    0 < numWorkers < 2 ^ 63 ->
    Pool.supervise numWorkers
      (repeat 1 (Z.to_nat numWorkers) ++ repeat (-1) m)
    = if Z.of_nat m <? numWorkers then None
      else Some (Some Cmd.ErrNoReadyWorkers).
Proof.
  intros n m Hn. unfold Pool.supervise.
  rewrite (PoolRuns.warmup_ones (Z.to_nat n) n 0) by lia.
  rewrite PoolRuns.warmup_at_target.
  apply PoolRuns.tracker_busy. exact Hn.
Qed.

Lemma overload_when_all_busy_witness :
  Pool.supervise 2 (repeat 1 (Z.to_nat 2) ++ repeat (-1) 1) = None /\
  Pool.supervise 2 (repeat 1 (Z.to_nat 2) ++ repeat (-1) 2)
  = Some (Some Cmd.ErrNoReadyWorkers).
Proof.
  assert (Hn : 0 < 2 < 2 ^ 63) by (split; reflexivity).
  split.
  - exact (overload_when_all_busy 2 1 Hn).
  - exact (overload_when_all_busy 2 2 Hn).
Defined.

(* ================================================================== *)
(** * Further statements: the access log *)
(* ================================================================== *)

(** X13. From a line made of fields separated by single spaces, [Parse]
    takes the method from the sixth field, dropping its first byte (the
    opening quote of the request line), and the path from the seventh, and
    asks for the request of that method at [scheme://target] followed by
    the path. *)
Theorem request_of_line_fields :
  forall (scheme target : string) (fields : list string) (c : ascii)
         (method path : string),
    forallb Observe.space_free fields = true ->
    nth_error fields 5 = Some (String c method) ->
    nth_error fields 6 = Some path ->
    AccessLog.request_of_line scheme target (AccessLog.Join fields)
    = Some {| AccessLog.Method := method;
              AccessLog.URL := (scheme ++ "://" ++ target ++ path)%string |}.
Proof.
  intros scheme target fields c method path Hfree H5 H6.
  unfold AccessLog.request_of_line.
  rewrite AccessLogFacts.Split_Join; [|intros ->; discriminate | exact Hfree].
  rewrite H5, H6. reflexivity.
Qed.

Lemma request_of_line_fields_witness :
  AccessLog.request_of_line "http" "localhost"
    (AccessLog.Join Samples.log_fields)
  = Some {| AccessLog.Method := "GET";
            AccessLog.URL := "http://localhost/index.html" |}.
Proof.
  apply (request_of_line_fields "http" "localhost" Samples.log_fields
           "034"%char "GET" "/index.html"); reflexivity.
Defined.

(** X14. A line with fewer than six spaces, the empty line among them, has
    no seventh field, and a line whose sixth field is empty has no byte to
    drop: on either [Parse] panics instead of returning an error. *)
Theorem short_line_panics :
  forall (flag : bool) (scheme target line : string) (o : AccessLog.line_obs)
         (rest : list (string * AccessLog.line_obs)) (scan_err : option string),
    (Observe.spaces line < 6)%nat
    \/ nth_error (AccessLog.Split line) 5 = Some EmptyString ->
    AccessLog.request_of_line scheme target line = None /\
    AccessLog.Parse flag scheme target (inr ((line, o) :: rest)) scan_err
    = ([], AccessLog.Panicked).
Proof.
  intros flag scheme target line o rest scan_err Hshort.
  assert (Hnone : AccessLog.request_of_line scheme target line = None).
  { unfold AccessLog.request_of_line. destruct Hshort as [Hsp|Hempty].
    - assert (H6 : nth_error (AccessLog.Split line) 6 = None).
      { apply nth_error_None. rewrite AccessLogFacts.Split_length. lia. }
      rewrite H6.
      destruct (nth_error (AccessLog.Split line) 5) as [[|? ?]|]; reflexivity.
    - rewrite Hempty. reflexivity. }
  split; [exact Hnone|]. simpl. rewrite Hnone. reflexivity.
Qed.

Lemma short_line_panics_witness :
  AccessLog.Parse false "http" "localhost"
    (inr [(EmptyString, Samples.sendable)]) None
  = ([], AccessLog.Panicked).
Proof.
  apply (short_line_panics false "http" "localhost" EmptyString
           Samples.sendable [] None).
  left. simpl. lia.
Defined.

(** X15. [Parse] sends the requests of the lines in the order of the file.
    It stops at the first request [http.NewRequest] refuses, having sent
    the requests of the lines before: it then returns the error wrapped
    as "can't construct request", unless requests are bound to the
    context, in which case it panics on the nil request; it stops with nil
    at a line whose send is cancelled; and when every line is sent it
    returns the scanner's error, if any.  A file that cannot be opened
    gives the error of [os.Open] and no request. *)
Theorem Parse_sends_in_order :
  forall (flag : bool) (scheme target : string) (scan_err : option string)
         (pre : list (string * AccessLog.line_obs)),
    forallb (Observe.accepted scheme target) pre = true ->
    AccessLog.Parse flag scheme target (inr pre) scan_err
    = (Observe.requests scheme target pre, AccessLog.Returned scan_err) /\
    (forall (line : string) (o : AccessLog.line_obs)
            (post : list (string * AccessLog.line_obs))
            (req : AccessLog.NewRequest) (err : string),
        AccessLog.request_of_line scheme target line = Some req ->
        AccessLog.new_request_err o = Some err ->
        AccessLog.Parse flag scheme target (inr (pre ++ (line, o) :: post))
          scan_err
        = (Observe.requests scheme target pre,
           if flag then AccessLog.Panicked
           else AccessLog.Returned
                  (Some ("can't construct request: " ++ err)%string))) /\
    (forall (line : string) (o : AccessLog.line_obs)
            (post : list (string * AccessLog.line_obs))
            (req : AccessLog.NewRequest),
        AccessLog.request_of_line scheme target line = Some req ->
        AccessLog.new_request_err o = None ->
        AccessLog.chosen o = Cancelled ->
        AccessLog.Parse flag scheme target (inr (pre ++ (line, o) :: post))
          scan_err
        = (Observe.requests scheme target pre, AccessLog.Returned None)) /\
    (forall err : string,
        AccessLog.Parse flag scheme target (inl err) scan_err
        = ([], AccessLog.Returned (Some err))).
Proof.
  intros flag scheme target scan_err pre Hpre.
  split; [now apply AccessLogFacts.scan_accepted|].
  split; [|split].
  - intros line o post req err Hreq Herr. simpl.
    rewrite (AccessLogFacts.scan_prefix flag scheme target scan_err pre _ Hpre).
    simpl. rewrite Hreq, Herr. unfold prepend.
    destruct flag; simpl; rewrite app_nil_r; reflexivity.
  - intros line o post req Hreq Herr Hsel. simpl.
    rewrite (AccessLogFacts.scan_prefix flag scheme target scan_err pre _ Hpre).
    simpl. rewrite Hreq, Herr, Hsel. unfold prepend. simpl.
    rewrite app_nil_r. reflexivity.
  - reflexivity.
Qed.

Lemma Parse_sends_in_order_witness :
  AccessLog.Parse false "http" "localhost"
    (inr ([(AccessLog.Join Samples.log_fields, Samples.sendable)]
          ++ (AccessLog.Join Samples.log_fields, Samples.refused_method)
          :: [(AccessLog.Join Samples.log_fields, Samples.sendable)])) None
  = ([ {| AccessLog.Method := "GET";
          AccessLog.URL := "http://localhost/index.html" |} ],
     AccessLog.Returned
       (Some "can't construct request: invalid method"%string)) /\
  AccessLog.Parse true "http" "localhost"
    (inr ([(AccessLog.Join Samples.log_fields, Samples.sendable)]
          ++ (AccessLog.Join Samples.log_fields, Samples.refused_method)
          :: [])) None
  = ([ {| AccessLog.Method := "GET";
          AccessLog.URL := "http://localhost/index.html" |} ],
     AccessLog.Panicked).
Proof.
  split.
  - refine (proj1 (proj2 (Parse_sends_in_order false "http" "localhost" None
                            [(AccessLog.Join Samples.log_fields,
                              Samples.sendable)] _))
              _ Samples.refused_method _
              {| AccessLog.Method := "GET";
                 AccessLog.URL := "http://localhost/index.html" |}
              "invalid method"%string _ _); reflexivity.
  - refine (proj1 (proj2 (Parse_sends_in_order true "http" "localhost" None
                            [(AccessLog.Join Samples.log_fields,
                              Samples.sendable)] _))
              _ Samples.refused_method _
              {| AccessLog.Method := "GET";
                 AccessLog.URL := "http://localhost/index.html" |}
              "invalid method"%string _ _); reflexivity.
Defined.

(* ================================================================== *)
(** * Further statements: the schedule in exact arithmetic *)
(* ================================================================== *)




